(** * Gaussian naive Bayes (imylu/probability_model/gaussian_nb.py)

    A shallow embedding of the [GaussianNB] class and the properties of its
    estimation and inference pipeline.

    Numbers.  The methods are embedded twice.

    - The exact model ([fit], [_get_posterior], [predict_prob], [predict]
      and their helpers) takes Python's [int] and [float] feature values
      for real numbers [R]: the arithmetic is exact.  A [float] computation
      differs from it by rounding, by underflow to [0.0], by overflow to
      [inf] or [nan], and by the [OverflowError] that [x ** 2] and
      [math.exp] raise out of range; none of these is an outcome of the
      exact model.  What is proved of the exact model is therefore either
      a statement about the values stored or returned when a call returns,
      a statement about which inputs are read and which exceptions can or
      cannot be raised by indexing, [None] or a stored [0], or a statement
      whose text names exact arithmetic.
    - Module [Py] gives the inference path ([_get_posterior],
      [_predict_prob], [predict_prob]) over any arithmetic: every
      operation on numbers is a parameter that may return any number or
      raise.  What is proved there holds of the program whatever [float]
      does.

    Labels are Python [int]s used as list indices, modelled by [Z] together
    with Python's rule for negative indices.

    Failures.  Every operation that can raise in Python returns a [result]:
    [Ok v] or [Raise e] with [e] the exception class.  [fit] mutates the
    object step by step, so it returns the object as it is when the call
    ends, also when it ends by an exception. *)

From Stdlib Require Import Reals Lra Lia ZArith.
From stdpp Require Import base option list gmap.

Set Warnings "-clear-no-such-hyp".

(** ** Exceptions and the error monad *)

Inductive exn : Set :=
  | ZeroDivisionError   (* [a / 0] *)
  | ValueError          (* [math.sqrt] of a negative number, [max] of an empty sequence *)
  | IndexError          (* list index out of range *)
  | TypeError           (* an operation applied to [None] *)
  | OverflowError.      (* a [float] result out of range, as in [1e200 ** 2] *)

Inductive result (A : Type) : Type :=
  | Ok (a : A)
  | Raise (e : exn).
Arguments Ok {A} a.
Arguments Raise {A} e.

#[global] Instance exn_eq_dec : EqDecision exn.
Proof. solve_decision. Defined.

#[global] Instance result_ret : MRet result := @Ok.
#[global] Instance result_bind : MBind result := λ A B f m,
  match m with
  | Ok a => f a
  | Raise e => Raise e
  end.
#[global] Instance result_fmap : FMap result := λ A B f m,
  match m with
  | Ok a => Ok (f a)
  | Raise e => Raise e
  end.

(** [for x in l: acc = body(acc, x)], stopping at the first exception. *)
Fixpoint foldM {A B : Type} (body : B → A → result B) (acc : B) (l : list A)
  : result B :=
  match l with
  | [] => Ok acc
  | x :: l' => acc' ← body acc x; foldM body acc' l'
  end.

(** [[f(x) for x in l]], stopping at the first exception. *)
Fixpoint mapR {A B : Type} (f : A → result B) (l : list A) : result (list B) :=
  match l with
  | [] => Ok []
  | x :: l' => b ← f x; bs ← mapR f l'; Ok (b :: bs)
  end.

(** An attribute that is still [None] cannot be used. *)
Definition not_None {A : Type} (o : option A) : result A :=
  match o with
  | Some a => Ok a
  | None => Raise TypeError
  end.

(** ** Python primitives *)

(** [l[i]] for a Python [int] index: negative indices count from the end. *)
Definition py_index (len : nat) (i : Z) : result nat :=
  if decide (0 ≤ i < Z.of_nat len)%Z then Ok (Z.to_nat i)
  else if decide (- Z.of_nat len ≤ i < 0)%Z then Ok (Z.to_nat (Z.of_nat len + i))
  else Raise IndexError.

Definition py_getitem {A : Type} (l : list A) (i : Z) : result A :=
  k ← py_index (length l) i;
  match l !! k with
  | Some a => Ok a
  | None => Raise IndexError
  end.

Definition py_setitem {A : Type} (l : list A) (i : Z) (a : A) : result (list A) :=
  k ← py_index (length l) i;
  Ok (<[k := a]> l).

(** [l[i] += rhs]: the old item is read, then [rhs] is evaluated, then the
    sum is stored. *)
Definition py_iadd_item (l : list R) (i : Z) (rhs : result R) : result (list R) :=
  old ← py_getitem l i;
  v ← rhs;
  py_setitem l i (old + v)%R.

(** True division [a / b]. *)
Definition py_div (a b : R) : result R :=
  if Req_dec_T b 0 then Raise ZeroDivisionError else Ok (a / b)%R.

(** [math.sqrt]. *)
Definition py_sqrt (a : R) : result R :=
  if Rlt_dec a 0 then Raise ValueError else Ok (sqrt a).

(** [sum(l)]: starts from [0] and adds from the left. *)
Definition py_sum (l : list R) : R := foldl Rplus 0%R l.

(** [zip(l1, l2, l3)] stops at the shortest argument. *)
Definition zip3 {A B C : Type} (l1 : list A) (l2 : list B) (l3 : list C)
  : list (A * B * C) :=
  zip (zip l1 l2) l3.

(** [enumerate(l)]. *)
Definition enumerate {A : Type} (l : list A) : list (nat * A) :=
  zip (seq 0 (length l)) l.

(** [max(l, key=key)]: the first item whose key is not exceeded; an item
    replaces the current best only when its key is strictly greater. *)
Definition py_max {A : Type} (key : A → R) (l : list A) : result A :=
  match l with
  | [] => Raise ValueError
  | x :: l' =>
      Ok (foldl (λ best item, if Rlt_dec (key best) (key item) then item else best) x l')
  end.

(** [collections.Counter(y)]: each element bumps its own count, a missing
    key counting as [0]. *)
Definition bump (cnt : gmap Z nat) (k : Z) : gmap Z nat :=
  <[k := S (default 0 (cnt !! k))]> cnt.

Definition Counter (y : list Z) : gmap Z nat := foldl bump ∅ y.

(** ** The class *)

Record GaussianNB : Type := mkGaussianNB {
  prior : option (gmap Z nat);
  avgs : option (list (list R));
  variances : option (list (list R));
  n_class : option nat
}.

(** [__init__] *)
Definition __init__ : GaussianNB :=
  {| prior := None; avgs := None; variances := None; n_class := None |}.

(** [_get_prior] *)
Definition _get_prior (y : list Z) : gmap Z nat := Counter y.

(** [_get_posterior], in exact arithmetic: [(xij - avg)**2] and [exp] are
    total here, while on [float] the first can raise [OverflowError] and the
    second can underflow to [0.0]; module [Py] has the same method over any
    arithmetic. *)
Definition _get_posterior (xij avg variance : R) : result R :=
  s ← py_sqrt (2 * PI * variance);
  a ← py_div 1 s;
  b ← py_div (- (xij - avg) ^ 2) (2 * variance);
  Ok (a * exp b)%R.

(** The body of the inner loop of [_get_avg_var], lines 78-79, in exact
    arithmetic: [X[i][j] ** 2] is total here, while on [float] it raises
    [OverflowError] out of range. *)
Definition column_step (X : list (list R)) (y : list Z) (j : nat)
    (acc : list R * list R) (i : nat) : result (list R * list R) :=
  let '(feature_sum, feature_sqr_sum) := acc in
  let Xij := Xi ← py_getitem X (Z.of_nat i); py_getitem Xi (Z.of_nat j) in
  yi ← py_getitem y (Z.of_nat i);
  feature_sum ← py_iadd_item feature_sum yi Xij;
  yi ← py_getitem y (Z.of_nat i);
  feature_sqr_sum ← py_iadd_item feature_sqr_sum yi ((λ x, x ^ 2)%R <$> Xij);
  Ok (feature_sum, feature_sqr_sum).

(** The body of the outer loop of [_get_avg_var], lines 75-85, in exact
    arithmetic: [x / n - y ** 2] is not rounded. *)
Definition feature_step (X : list (list R)) (y : list Z) (n_class n : nat)
    (acc : list (list R) * list (list R)) (j : nat)
  : result (list (list R) * list (list R)) :=
  let '(avgs, variances) := acc in
  let feature_sum := replicate n_class 0%R in
  let feature_sqr_sum := replicate n_class 0%R in
  '(feature_sum, feature_sqr_sum) ←
    foldM (column_step X y j) (feature_sum, feature_sqr_sum) (seq 0 n);
  feature_avg ← mapR (λ x, py_div x (INR n)) feature_sum;
  feature_var ←
    mapR (λ '(x, y), q ← py_div x (INR n); Ok (q - y ^ 2)%R)
         (zip feature_sqr_sum feature_avg);
  Ok (avgs ++ [feature_avg], variances ++ [feature_var]).

(** [_get_avg_var] *)
Definition _get_avg_var (X : list (list R)) (y : list Z) (n_class : nat)
  : result (list (list R) * list (list R)) :=
  X0 ← py_getitem X 0;
  let m := length X0 in
  let n := length X in
  foldM (feature_step X y n_class n) ([], []) (seq 0 m).

(** [fit]: the object after the call, and how the call ended.  [prior] and
    [n_class] are assigned before [_get_avg_var] runs, so they are set also
    when it raises. *)
Definition fit (self : GaussianNB) (X : list (list R)) (y : list Z)
  : GaussianNB * result () :=
  let prior := _get_prior y in
  let n_class := size prior in
  let self := {| prior := Some prior; avgs := avgs self;
                 variances := variances self; n_class := Some n_class |} in
  match _get_avg_var X y n_class with
  | Ok (a, v) =>
      ({| prior := Some prior; avgs := Some a; variances := Some v;
          n_class := Some n_class |}, Ok ())
  | Raise e => (self, Raise e)
  end.

(** The body of the loop of [_predict_prob], lines 117-118. *)
Definition joint_step (probs : list R) (item : R * list R * list R)
  : result (list R) :=
  let '(xij, avgs, variances) := item in
  mapR (λ '(prob, avg, var), p ← _get_posterior xij avg var; Ok (prob * p)%R)
       (zip3 probs avgs variances).

(** [_predict_prob], in exact arithmetic: the products and their sum are
    neither rounded nor underflow to [0.0]; module [Py] has the same method
    over any arithmetic. *)
Definition _predict_prob (self : GaussianNB) (row : list R) : result (list R) :=
  k ← not_None (n_class self);
  let probs := replicate k 1%R in
  a ← not_None (avgs self);
  v ← not_None (variances self);
  probs ← foldM joint_step probs (zip3 row a v);
  let probs_sum := py_sum probs in
  mapR (λ prob, py_div prob probs_sum) probs.

(** [predict_prob] *)
Definition predict_prob (self : GaussianNB) (X : list (list R))
  : result (list (list R)) :=
  mapR (_predict_prob self) X.

(** [predict]; [threshold] is a parameter the body never reads. *)
Definition predict (self : GaussianNB) (X : list (list R)) (threshold : R)
  : result (list nat) :=
  P ← predict_prob self X;
  mapR (λ y, fst <$> py_max snd (enumerate y)) P.

(** ** The inference path over any arithmetic *)

(** The operations that [_get_posterior] and [_predict_prob] apply to
    numbers.  Nothing is assumed of them: each may round, overflow to
    [inf], underflow to [0.0], give [nan] or raise, as the operations of
    Python's [int] and [float] do. *)
Class Arithmetic (num : Type) : Type := {
  num_zero : num;                       (* [0], where [sum] starts *)
  num_one : num;                        (* [1] *)
  num_two : num;                        (* [2] *)
  num_pi : num;                         (* [math.pi] *)
  num_add : num → num → result num;     (* [a + b] *)
  num_sub : num → num → result num;     (* [a - b] *)
  num_mul : num → num → result num;     (* [a * b] *)
  num_div : num → num → result num;     (* [a / b] *)
  num_neg : num → result num;           (* [-a] *)
  num_sqr : num → result num;           (* [a ** 2] *)
  num_sqrt : num → result num;          (* [math.sqrt(a)] *)
  num_exp : num → result num            (* [math.exp(a)] *)
}.

(** The arithmetic of the definitions above: exact, and raising only
    where they raise. *)
#[global] Instance exact_arithmetic : Arithmetic R := {|
  num_zero := 0%R;
  num_one := 1%R;
  num_two := 2%R;
  num_pi := PI;
  num_add a b := Ok (a + b)%R;
  num_sub a b := Ok (a - b)%R;
  num_mul a b := Ok (a * b)%R;
  num_div := py_div;
  num_neg a := Ok (- a)%R;
  num_sqr a := Ok (a ^ 2)%R;
  num_sqrt := py_sqrt;
  num_exp a := Ok (exp a)
|}.

(** An arithmetic with two of the limits of [float]: [a ** 2] raises
    [OverflowError] when [|a| >= 10^154], and [math.exp] gives [0] below
    [-745]. *)
Definition limited_arithmetic : Arithmetic R := {|
  num_zero := 0%R;
  num_one := 1%R;
  num_two := 2%R;
  num_pi := PI;
  num_add a b := Ok (a + b)%R;
  num_sub a b := Ok (a - b)%R;
  num_mul a b := Ok (a * b)%R;
  num_div := py_div;
  num_neg a := Ok (- a)%R;
  num_sqr a := if Rlt_dec (Rabs a) (10 ^ 154) then Ok (a ^ 2)%R
               else Raise OverflowError;
  num_sqrt := py_sqrt;
  num_exp a := Ok (if Rlt_dec a (-745) then 0 else exp a)%R
|}.

Module Py.

Record GaussianNB (num : Type) : Type := mkGaussianNB {
  prior : option (gmap Z nat);
  avgs : option (list (list num));
  variances : option (list (list num));
  n_class : option nat
}.
Arguments mkGaussianNB {num} _ _ _ _.
Arguments prior {num} _.
Arguments avgs {num} _.
Arguments variances {num} _.
Arguments n_class {num} _.

Section methods.
Context {num : Type} `{!Arithmetic num}.

#[local] Instance num_inhabited : Inhabited num := populate num_zero.

(** [_get_posterior], operation by operation in the order Python evaluates
    [1 / sqrt(2 * pi * variance) * exp(-(xij - avg)**2 / (2 * variance))]. *)
Definition _get_posterior (xij avg variance : num) : result num :=
  t ← num_mul num_two num_pi;
  t ← num_mul t variance;
  s ← num_sqrt t;
  a ← num_div num_one s;
  d ← num_sub xij avg;
  q ← num_sqr d;
  q ← num_neg q;
  w ← num_mul num_two variance;
  b ← num_div q w;
  e ← num_exp b;
  num_mul a e.

(** The body of the loop of [_predict_prob], lines 117-118. *)
Definition joint_step (probs : list num) (item : num * list num * list num)
  : result (list num) :=
  let '(xij, avgs, variances) := item in
  mapR (λ '(prob, avg, var), p ← _get_posterior xij avg var; num_mul prob p)
       (zip3 probs avgs variances).

(** [sum(l)]: starts from [0] and adds from the left. *)
Definition py_sum (l : list num) : result num := foldM num_add num_zero l.

(** [_predict_prob] *)
Definition _predict_prob (self : GaussianNB num) (row : list num)
  : result (list num) :=
  k ← not_None (n_class self);
  let probs := replicate k num_one in
  a ← not_None (avgs self);
  v ← not_None (variances self);
  probs ← foldM joint_step probs (zip3 row a v);
  probs_sum ← py_sum probs;
  mapR (λ prob, num_div prob probs_sum) probs.

(** [predict_prob] *)
Definition predict_prob (self : GaussianNB num) (X : list (list num))
  : result (list (list num)) :=
  mapR (_predict_prob self) X.


End methods.
End Py.

(** The object of the exact model as an object over [exact_arithmetic]. *)
Definition of_exact (self : GaussianNB) : Py.GaussianNB R :=
  Py.mkGaussianNB (prior self) (avgs self) (variances self) (n_class self).

(** ** Specification-side definitions *)

#[global] Instance R_inhabited : Inhabited R := populate 0%R.

(** [big_sum n f] is the sum of [f i] and [big_prod n f] the product of
    [f i], over [0 <= i < n]. *)
Fixpoint big_sum (n : nat) (f : nat → R) : R :=
  match n with
  | 0 => 0
  | S n' => big_sum n' f + f n'
  end.

Fixpoint big_prod (n : nat) (f : nat → R) : R :=
  match n with
  | 0 => 1
  | S n' => big_prod n' f * f n'
  end.

(** The number of times the label [k] occurs in [y]. *)
Definition occurrences (k : Z) (y : list Z) : nat :=
  length (filter (λ l, l = k) y).

(** The density of the normal distribution with mean [avg] and variance
    [var] at [x]. *)
Definition gaussian_pdf (x avg var : R) : R :=
  1 / sqrt (2 * PI * var) * exp (- (x - avg) ^ 2 / (2 * var)).

(** The sum of [g X[i][j]] over the rows [i < n] whose label is [c]. *)
Definition label_sum (g : R → R) (X : list (list R)) (y : list Z)
    (j c n : nat) : R :=
  big_sum n (λ i, if decide (y !!! i = Z.of_nat c) then g ((X !!! i) !!! j) else 0%R).

(** The sum of the values, and of their squares, that column [j] takes on
    the rows of class [c]. *)
Definition class_sum (X : list (list R)) (y : list Z) (j c : nat) : R :=
  label_sum (λ x, x) X y j c (length X).

Definition class_sqr_sum (X : list (list R)) (y : list Z) (j c : nat) : R :=
  label_sum (λ x, x ^ 2)%R X y j c (length X).

(** The moments in closed form: both sums are divided by the number of
    rows of [X]. *)
Definition scaled_avg (X : list (list R)) (y : list Z) (j c : nat) : R :=
  (class_sum X y j c / INR (length X))%R.

Definition scaled_var (X : list (list R)) (y : list Z) (j c : nat) : R :=
  (class_sqr_sum X y j c / INR (length X) - scaled_avg X y j c ^ 2)%R.

Definition moment_table (f : nat → nat → R) (m k : nat) : list (list R) :=
  (λ j, f j <$> seq 0 k) <$> seq 0 m.

(** The entry of class [c] in column [j] of a table of moments. *)
Definition entry (M : list (list R)) (j c : nat) : option R :=
  col ← M !! j; col !! c.

(** A dataset as the data model has it: [n >= 1] rows of [m] columns, one
    label per row, every label a class index below [k]. *)
Definition dataset (X : list (list R)) (y : list Z) (m k : nat) : Prop :=
  X ≠ [] ∧ Forall (λ row, length row = m) X ∧ length y = length X ∧
  Forall (λ l, (0 ≤ l < Z.of_nat k)%Z) y.

(** The mean of column [j] over all the rows of [X]. *)
Definition column_mean (X : list (list R)) (j : nat) : R :=
  (big_sum (length X) (λ i, (X !!! i) !!! j) / INR (length X))%R.

(** The variances of one column, one per class, all positive. *)
Definition positive_column (k : nat) (v : list R) : Prop :=
  length v = k ∧ Forall (λ s, (0 < s)%R) v.

(** The product over the columns [j] of [row] of the density of [row[j]]
    under the mean [A[j][c]] and the variance [V[j][c]] of class [c]. *)
Definition likelihood (A V : list (list R)) (row : list R) (c : nat) : R :=
  big_prod (length row)
    (λ j, gaussian_pdf (row !!! j) ((A !!! j) !!! c) ((V !!! j) !!! c)).

(** The likelihood of class [c], normalised over the [k] classes. *)
Definition posterior (A V : list (list R)) (row : list R) (k c : nat) : R :=
  (likelihood A V row c / big_sum k (likelihood A V row))%R.

(** [i] is the index of the first maximal entry of [p]: no entry is
    greater, and every entry before it is strictly smaller. *)
Definition is_first_max (p : list R) (i : nat) : Prop :=
  ∃ v, p !! i = Some v ∧
    (∀ j w, p !! j = Some w → (w <= v)%R) ∧
    (∀ j w, j < i → p !! j = Some w → (w < v)%R).

(** Column [j] takes a single value on the rows of class [c]. *)
Definition constant_in_class (X : list (list R)) (y : list Z) (j c : nat) : Prop :=
  ∃ x, ∀ i row, y !! i = Some (Z.of_nat c) → X !! i = Some row → row !! j = Some x.

(** ** Datasets small enough to run by hand *)

(** One column, two rows, one row per class. *)
Definition X_two : list (list R) := [[1]; [3]]%R.
Definition y_two : list Z := [0; 1]%Z.

(** What [fit] makes of it: the sums [1] and [3] and the sums of squares
    [1] and [9], all divided by the [2] rows. *)
Definition model_two : GaussianNB :=
  {| prior := Some (_get_prior y_two);
     avgs := Some [[1 / 2; 3 / 2]]%R;
     variances := Some [[1 / 4; 9 / 4]]%R;
     n_class := Some 2 |}.

(** The only value of class [0] is [0]: its sum and its sum of squares are
    both [0]. *)
Definition X_zero : list (list R) := [[0]; [1]]%R.

Definition model_zero : GaussianNB :=
  {| prior := Some (_get_prior y_two);
     avgs := Some [[0; 1 / 2]]%R;
     variances := Some [[0; 1 / 4]]%R;
     n_class := Some 2 |}.

(** The column is constant, [5], on the two rows of class [0], among four
    rows. *)
Definition X_const : list (list R) := [[5]; [5]; [1]; [3]]%R.
Definition y_const : list Z := [0; 0; 1; 1]%Z.

Definition model_const : GaussianNB :=
  {| prior := Some (_get_prior y_const);
     avgs := Some [[5 / 2; 1]]%R;
     variances := Some [[25 / 4; 3 / 2]]%R;
     n_class := Some 2 |}.

(** The two-class scenario of the specification: three rows around [1] and
    three rows around [10]. *)
Definition X_six : list (list R) :=
  [[1]; [12 / 10]; [8 / 10]; [10]; [102 / 10]; [98 / 10]]%R.
Definition y_six : list Z := [0; 0; 0; 1; 1; 1]%Z.

(** ** Further specification-side definitions *)

(** What [_get_avg_var] needs of its input when there are [k] classes: a
    first row and, unless that row has no columns, in every row at least as
    many columns as in the first one, together with a label that is an
    index, counted from either end, into a list of [k] items. *)
Definition trainable (X : list (list R)) (y : list Z) (k : nat) : Prop :=
  ∃ X0, X !! 0 = Some X0 ∧
    (length X0 = 0 ∨
     ∀ i row, X !! i = Some row →
       length X0 ≤ length row ∧
       ∃ l, y !! i = Some l ∧ (- Z.of_nat k ≤ l < Z.of_nat k)%Z).

(** The class a label stands for when it is used as an index into a list
    of [k] items: a negative label [l >= -k] counts from the end. *)
Definition wrap_label (k : nat) (l : Z) : Z :=
  if decide (- Z.of_nat k ≤ l < 0)%Z then (Z.of_nat k + l)%Z else l.


(** The number of columns [_get_avg_var] works on: those of the first
    row. *)
Definition first_row_length (X : list (list R)) : nat :=
  length (default [] (head X)).

(** Column [j] is [0] on every row of class [c]. *)
Definition zero_in_class (X : list (list R)) (y : list Z) (j c : nat) : Prop :=
  ∀ i, i < length X → y !!! i = Z.of_nat c → (X !!! i) !!! j = 0%R.

(** Every row is of class [c]. *)
Definition only_class (X : list (list R)) (y : list Z) (c : nat) : Prop :=
  ∀ i, i < length X → y !!! i = Z.of_nat c.

(** Column [j] takes a single value. *)
Definition constant_column (X : list (list R)) (j : nat) : Prop :=
  ∃ x, ∀ i, i < length X → (X !!! i) !!! j = x.

(** [sum(prior.values())]: the counts of a prior added up. *)
Definition prior_total (cnt : gmap Z nat) : nat :=
  map_fold (λ _ c total, c + total) 0 cnt.

(** The sum of [g row[j]] over the training rows, given with their labels,
    that are of class [c]. *)
Definition rows_sum (g : R → R) (j c : nat) (rows : list (list R * Z)) : R :=
  foldr (λ r acc, (if decide (r.2 = Z.of_nat c) then g (r.1 !!! j) else 0) + acc)%R
        0%R rows.

(** The two lists of per-class sums of the inner loop of [_get_avg_var]
    have [k] items each. *)
Definition sums_shape (k : nat) (acc : list R * list R) : Prop :=
  length acc.1 = k ∧ length acc.2 = k.

(** The two rows of [X_two] with the first label written from the end:
    [-1] stands for class [1]. *)
Definition y_back : list Z := [-1; 0]%Z.

(** The rows of [X_two] with their labels, and the same in the other
    order. *)
Definition rows_two : list (list R * Z) := [([1%R], 0%Z); ([3%R], 1%Z)].
Definition rows_two_swapped : list (list R * Z) := [([3%R], 1%Z); ([1%R], 0%Z)].

(** ** Tactics *)

(** Reduce the binds of the error monad, and nothing else. *)
Ltac step_result :=
  cbn [mbind result_bind fmap result_fmap mret result_ret not_None].

(** Evaluate a closed-form moment on explicit data. *)
Ltac eval_moment :=
  unfold scaled_var, scaled_avg, class_sqr_sum, class_sum, label_sum;
  cbn; repeat (case_decide; try lia); lra.

(** ** The prior estimator *)

Section prior.
Implicit Types (y : list Z) (k : Z) (cnt : gmap Z nat).

Lemma occurrences_cons l k y :
  occurrences k (l :: y) = (if decide (l = k) then 1 else 0) + occurrences k y.
Proof.
  unfold occurrences. rewrite filter_cons. by destruct (decide (l = k)).
Qed.

Lemma bump_fold_count y : ∀ cnt k,
  default 0 (foldl bump cnt y !! k) = default 0 (cnt !! k) + occurrences k y.
Proof.
  induction y as [|l y IH]; intros cnt k; cbn [foldl].
  - unfold occurrences. cbn. lia.
  - rewrite IH, occurrences_cons. unfold bump.
    destruct (decide (l = k)) as [->|Hne].
    + rewrite lookup_insert_eq. cbn. lia.
    + rewrite lookup_insert_ne by done. lia.
Qed.

Lemma bump_fold_dom y : ∀ cnt,
  dom (foldl bump cnt y) = dom cnt ∪ list_to_set y.
Proof.
  induction y as [|l y IH]; intros cnt; cbn [foldl].
  - set_solver.
  - rewrite IH. unfold bump. rewrite dom_insert_L. set_solver.
Qed.

Lemma Counter_dom y : dom (Counter y) = list_to_set y.
Proof. unfold Counter. rewrite bump_fold_dom. set_solver. Qed.

Lemma Counter_lookup y k :
  Counter y !! k = if decide (k ∈ y) then Some (occurrences k y) else None.
Proof.
  pose proof (bump_fold_count y ∅ k) as Hc. rewrite lookup_empty in Hc. cbn in Hc.
  fold (Counter y) in Hc.
  destruct (decide (k ∈ y)) as [Hin|Hnin].
  - assert (is_Some (Counter y !! k)) as [c Hk].
    { apply elem_of_dom. rewrite Counter_dom. set_solver. }
    rewrite Hk in Hc |- *. cbn in Hc. by subst c.
  - apply not_elem_of_dom. rewrite Counter_dom. set_solver.
Qed.

Lemma Counter_size y : size (Counter y) = length (remove_dups y).
Proof.
  rewrite <- size_dom, Counter_dom.
  rewrite <- (size_list_to_set (C := gset Z) (remove_dups y)) by apply NoDup_remove_dups.
  f_equal. apply set_eq. intros k.
  by rewrite !elem_of_list_to_set, elem_of_remove_dups.
Qed.
End prior.

(** ** Arithmetic and the Python primitives *)

Lemma py_div_ok (a b : R) : b ≠ 0%R → py_div a b = Ok (a / b)%R.
Proof. intros Hb. unfold py_div. by destruct (Req_dec_T b 0). Qed.

Lemma py_div_zero (a : R) : py_div a 0 = Raise ZeroDivisionError.
Proof. unfold py_div. by destruct (Req_dec_T 0 0). Qed.

Lemma py_sqrt_ok (a : R) : (0 <= a)%R → py_sqrt a = Ok (sqrt a).
Proof. intros Ha. unfold py_sqrt. destruct (Rlt_dec a 0); [lra | done]. Qed.

Lemma py_sqrt_neg (a : R) : (a < 0)%R → py_sqrt a = Raise ValueError.
Proof. intros Ha. unfold py_sqrt. destruct (Rlt_dec a 0); [done | lra]. Qed.

Lemma big_sum_ext n f g : (∀ i, i < n → f i = g i) → big_sum n f = big_sum n g.
Proof.
  induction n as [|n IH]; intros Hfg; cbn; [done|].
  rewrite IH, Hfg by (intros; auto with lia). done.
Qed.

Lemma big_prod_shift n f : big_prod (S n) f = (f 0%nat * big_prod n (f ∘ S))%R.
Proof.
  induction n as [|n IH]; [cbn; lra|].
  change (big_prod (S (S n)) f) with (big_prod (S n) f * f (S n))%R.
  rewrite IH. cbn. lra.
Qed.

Lemma big_prod_pos n f : (∀ i, i < n → (0 < f i)%R) → (0 < big_prod n f)%R.
Proof.
  induction n as [|n IH]; intros Hf; cbn; [lra|].
  apply Rmult_lt_0_compat; auto with lia.
Qed.

Lemma big_sum_pos n f : 0 < n → (∀ i, i < n → (0 < f i)%R) → (0 < big_sum n f)%R.
Proof.
  induction n as [|n IH]; intros Hn Hf; [lia|]. cbn.
  destruct n as [|n]; [cbn; pose proof (Hf 0 ltac:(lia)); lra|].
  assert (0 < big_sum (S n) f)%R by (apply IH; auto with lia).
  pose proof (Hf (S n) ltac:(lia)). lra.
Qed.

Lemma py_sum_big_sum (l : list R) : py_sum l = big_sum (length l) (λ c, l !!! c).
Proof.
  unfold py_sum. induction l as [|x l IH] using rev_ind; [done|].
  rewrite foldl_app, length_app, Nat.add_1_r. cbn. rewrite IH. f_equal.
  - apply big_sum_ext. intros i Hi. by rewrite lookup_total_app_l.
  - rewrite lookup_total_app_r, Nat.sub_diag by done. done.
Qed.

Lemma big_sum_const n (v : R) : big_sum n (λ _, v) = (INR n * v)%R.
Proof. induction n as [|n IH]; [cbn; lra|]. rewrite S_INR. cbn. rewrite IH. lra. Qed.

(** ** The density evaluator *)

Section density.
Local Open Scope R_scope.
Implicit Types x avg var : R.

Lemma two_pi_var_pos var : 0 < var → 0 < 2 * PI * var.
Proof. intros Hv. pose proof PI_RGT_0. apply Rmult_lt_0_compat; lra. Qed.

Lemma _get_posterior_pos x avg var :
  0 < var → _get_posterior x avg var = Ok (gaussian_pdf x avg var).
Proof.
  intros Hv. pose proof (two_pi_var_pos var Hv) as H2.
  unfold _get_posterior, gaussian_pdf.
  rewrite py_sqrt_ok by lra. step_result.
  rewrite (py_div_ok 1) by (pose proof (sqrt_lt_R0 _ H2); lra). step_result.
  rewrite py_div_ok by lra. done.
Qed.

Lemma _get_posterior_zero x avg :
  _get_posterior x avg 0 = Raise ZeroDivisionError.
Proof.
  unfold _get_posterior. rewrite !Rmult_0_r, py_sqrt_ok by lra. step_result.
  rewrite sqrt_0, (py_div_zero 1). reflexivity.
Qed.

Lemma _get_posterior_neg x avg var :
  var < 0 → _get_posterior x avg var = Raise ValueError.
Proof.
  intros Hv. unfold _get_posterior. rewrite py_sqrt_neg; [reflexivity|].
  pose proof PI_RGT_0. nra.
Qed.

Lemma gaussian_pdf_pos x avg var : 0 < var → 0 < gaussian_pdf x avg var.
Proof.
  intros Hv. unfold gaussian_pdf. apply Rmult_lt_0_compat; [|apply exp_pos].
  apply Rdiv_lt_0_compat; [lra|]. apply sqrt_lt_R0, two_pi_var_pos, Hv.
Qed.
End density.

(** ** Comprehensions and loops in the error monad *)

Section loops.
Context {A B : Type}.
Implicit Types (f : A → result B) (l : list A).

Lemma mapR_ok_fmap f (g : A → B) l :
  (∀ x, x ∈ l → f x = Ok (g x)) → mapR f l = Ok (g <$> l).
Proof.
  induction l as [|x l IH]; intros Hf; [done|]. cbn [mapR].
  rewrite Hf by left. step_result. rewrite IH; [done|].
  intros z Hz. apply Hf. by right.
Qed.

Lemma mapR_Forall2 f l bs :
  mapR f l = Ok bs ↔ Forall2 (λ x b, f x = Ok b) l bs.
Proof.
  revert bs. induction l as [|x l IH]; intros bs; cbn [mapR].
  - split; [intros [= <-]; constructor | by intros ->%Forall2_nil_inv_l].
  - split.
    + destruct (f x) as [b|e] eqn:Hx; [|done]. step_result.
      destruct (mapR f l) as [bs'|e] eqn:Hl; [|done]. step_result.
      intros [= <-]. constructor; [done|]. by apply IH.
    + intros (b & bs' & Hx & Hl & ->)%Forall2_cons_inv_l.
      rewrite Hx. step_result. apply IH in Hl. by rewrite Hl.
Qed.

Lemma mapR_length f l bs : mapR f l = Ok bs → length bs = length l.
Proof. intros H%mapR_Forall2. symmetry. by eapply Forall2_length. Qed.

End loops.

(** ** Where a comprehension or a loop raises *)

Lemma mapR_Raise_inv {A B : Type} (f : A → result B) (l : list A) (e : exn) :
  mapR f l = Raise e → ∃ x, x ∈ l ∧ f x = Raise e.
Proof.
  induction l as [|x l IH]; cbn [mapR]; [done|].
  destruct (f x) as [b|e'] eqn:Hx; step_result.
  - destruct (mapR f l) as [bs|e'']; step_result; [done|].
    intros [= <-]. destruct IH as (z & Hz & Hfz); [done|].
    exists z. split; [by right | done].
  - intros [= <-]. exists x. split; [by left | done].
Qed.

Lemma foldM_Raise_inv {A B : Type} (body : B → A → result B) (l : list A) (e : exn) :
  ∀ acc, foldM body acc l = Raise e → ∃ acc' x, x ∈ l ∧ body acc' x = Raise e.
Proof.
  induction l as [|x l IH]; intros acc; cbn [foldM]; [done|].
  destruct (body acc x) as [acc'|e'] eqn:Hx; step_result.
  - intros (acc'' & z & Hz & Hbz)%IH. exists acc'', z. split; [by right | done].
  - intros [= <-]. exists acc, x. split; [by left | done].
Qed.

Lemma mapR_app {A B : Type} (f : A → result B) (l1 l2 : list A) :
  mapR f (l1 ++ l2) = bs1 ← mapR f l1; bs2 ← mapR f l2; Ok (bs1 ++ bs2).
Proof.
  induction l1 as [|x l1 IH]; cbn [mapR app]; step_result.
  - by destruct (mapR f l2).
  - destruct (f x) as [b|e]; step_result; [|done]. rewrite IH.
    destruct (mapR f l1) as [bs1|e]; step_result; [|done].
    by destruct (mapR f l2).
Qed.

(** ** Loops with an invariant *)

Section loop_invariants.
Context {A B : Type} (Inv : B → Prop) (body : B → A → result B).

(** A loop whose body succeeds wherever the invariant holds runs to its
    end. *)
Lemma foldM_accepts (l : list A) :
  (∀ acc x, x ∈ l → Inv acc → ∃ acc', body acc x = Ok acc' ∧ Inv acc') →
  ∀ acc, Inv acc → ∃ r, foldM body acc l = Ok r ∧ Inv r.
Proof.
  induction l as [|x l IH]; intros Hbody acc Hacc; [by exists acc|].
  destruct (Hbody acc x) as (acc' & Hx & Hacc'); [by left | done |].
  destruct (IH (λ a z Hz, Hbody a z (list_elem_of_further _ _ _ Hz)) acc' Hacc')
    as (r & Hr & HInv).
  exists r. cbn [foldM]. by rewrite Hx.
Qed.

(** A loop that ran to its end ran its body, successfully, on every item,
    from a state where the invariant held. *)
Lemma foldM_Ok_each (l : list A) :
  (∀ acc x acc', Inv acc → body acc x = Ok acc' → Inv acc') →
  ∀ acc r, Inv acc → foldM body acc l = Ok r →
    Inv r ∧ ∀ x, x ∈ l → ∃ acc0 acc1, Inv acc0 ∧ body acc0 x = Ok acc1.
Proof.
  intros Hkeep. induction l as [|x l IH]; intros acc r Hacc; cbn [foldM].
  - intros [= <-]. split; [done|]. by intros x ?%elem_of_nil.
  - destruct (body acc x) as [acc'|e] eqn:Hx; step_result; [|done].
    intros Hr. destruct (IH acc' r (Hkeep _ _ _ Hacc Hx) Hr) as [HInv Heach].
    split; [done|]. intros z [->|Hz]%elem_of_cons; [by exists acc, acc'|].
    by apply Heach.
Qed.

(** Two loops whose bodies agree wherever the invariant holds agree. *)
Lemma foldM_agree (body' : B → A → result B) (l : list A) :
  (∀ acc x acc', Inv acc → body acc x = Ok acc' → Inv acc') →
  (∀ acc x, x ∈ l → Inv acc → body acc x = body' acc x) →
  ∀ acc, Inv acc → foldM body acc l = foldM body' acc l.
Proof.
  intros Hkeep. induction l as [|x l IH]; intros Hagree acc Hacc; [done|].
  cbn [foldM]. rewrite <- (Hagree acc x) by (done || by left).
  destruct (body acc x) as [acc'|e] eqn:Hx; step_result; [|done].
  apply IH; [|by eapply Hkeep]. intros a z Hz. apply Hagree. by right.
Qed.
End loop_invariants.

(** ** Inference: [_predict_prob] *)

Section inference.
Local Open Scope R_scope.
Implicit Types (probs row : list R) (A V : list (list R)).

Lemma joint_step_ok x a v : ∀ probs k,
  length probs = k → length a = k → positive_column k v →
  ∃ P, joint_step probs (x, a, v) = Ok P ∧ length P = k ∧
    ∀ c, (c < k)%nat →
      P !!! c = probs !!! c * gaussian_pdf x (a !!! c) (v !!! c).
Proof.
  unfold joint_step, zip3. revert a v.
  intros a v probs. revert a v.
  induction probs as [|p probs IH]; intros a v k Hp Ha [Hv Hpos].
  - exists []. cbn in *. split_and!; [done..|]. intros c Hc. lia.
  - destruct a as [|a0 a]; [cbn in *; lia|].
    destruct v as [|v0 v]; [cbn in *; lia|].
    apply Forall_cons in Hpos as [Hv0 Hpos].
    destruct k as [|k]; [done|]. cbn in Hp, Ha, Hv.
    destruct (IH a v k) as (P & HP & Hlen & Hc);
      [lia | lia | split; [lia | done] |].
    cbn [zip zip_with mapR]. rewrite _get_posterior_pos by done. step_result.
    cbn [zip zip_with] in HP. rewrite HP. step_result.
    eexists. split_and!; [done | cbn; lia |].
    intros [|c] Hlt; [done|]. cbn. apply Hc. lia.
Qed.

Lemma likelihood_cons a A v V x row c :
  likelihood (a :: A) (v :: V) (x :: row) c =
  gaussian_pdf x (a !!! c) (v !!! c) * likelihood A V row c.
Proof. unfold likelihood. cbn [length]. by rewrite big_prod_shift. Qed.

Lemma likelihood_pos A V row c k :
  (length row ≤ length V)%nat → (c < k)%nat → Forall (positive_column k) V →
  0 < likelihood A V row c.
Proof.
  intros Hlen Hc HV. apply big_prod_pos. intros j Hj.
  apply gaussian_pdf_pos.
  destruct (lookup_lt_is_Some_2 V j) as [v Hv]; [lia|].
  rewrite (list_lookup_total_correct _ _ _ Hv).
  destruct (proj1 (Forall_lookup _ _) HV j v Hv) as [Hk Hpos].
  destruct (lookup_lt_is_Some_2 v c) as [s Hs]; [lia|].
  rewrite (list_lookup_total_correct _ _ _ Hs).
  by apply (proj1 (Forall_lookup _ _) Hpos c s).
Qed.

Lemma joint_loop_ok row : ∀ A V probs k,
  (length row ≤ length A)%nat → (length row ≤ length V)%nat →
  Forall (λ a, length a = k) A → Forall (positive_column k) V →
  length probs = k →
  ∃ P, foldM joint_step probs (zip3 row A V) = Ok P ∧ length P = k ∧
    ∀ c, (c < k)%nat → P !!! c = probs !!! c * likelihood A V row c.
Proof.
  induction row as [|x row IH]; intros A V probs k HA HV HAk HVk Hp.
  - exists probs. split_and!; [done..|]. intros c _. unfold likelihood. cbn. lra.
  - destruct A as [|a A]; [cbn in HA; lia|].
    destruct V as [|v V]; [cbn in HV; lia|].
    apply Forall_cons in HAk as [Ha HAk]. apply Forall_cons in HVk as [Hv HVk].
    destruct (joint_step_ok x a v probs k) as (P1 & HP1 & Hlen1 & Hc1); [done..|].
    destruct (IH A V P1 k) as (P & HP & Hlen & Hc);
      [cbn in HA; lia | cbn in HV; lia | done..|].
    exists P. split_and!; [|done|].
    + unfold zip3. cbn [zip zip_with foldM]. fold (zip3 row A V).
      rewrite HP1. step_result. done.
    + intros c Hlt. rewrite Hc, Hc1, likelihood_cons by done. lra.
Qed.

Lemma _predict_prob_ok self row A V k :
  n_class self = Some k → avgs self = Some A → variances self = Some V →
  (length row ≤ length A)%nat → (length row ≤ length V)%nat →
  Forall (λ a, length a = k) A → Forall (positive_column k) V →
  ∃ P, _predict_prob self row = Ok P ∧ length P = k ∧
    ∀ c, (c < k)%nat → P !! c = Some (posterior A V row k c).
Proof.
  intros Hk HA HV HlA HlV HAk HVk. unfold _predict_prob.
  rewrite Hk, HA, HV. step_result.
  destruct (joint_loop_ok row A V (replicate k 1) k) as (P0 & HP0 & Hlen & Hc);
    [done .. | by rewrite length_replicate |].
  rewrite HP0. step_result.
  assert (py_sum P0 = big_sum k (likelihood A V row)) as ->.
  { rewrite py_sum_big_sum, Hlen. apply big_sum_ext. intros c Hlt.
    rewrite Hc, lookup_total_replicate_2 by done. lra. }
  destruct (decide (k = 0%nat)) as [->|Hk0].
  - apply nil_length_inv in Hlen as ->. exists []. split_and!; [done..|]. lia.
  - assert (0 < big_sum k (likelihood A V row)) as Hsum.
    { apply big_sum_pos; [lia|]. intros c Hlt. by eapply likelihood_pos. }
    rewrite (mapR_ok_fmap _ (λ p, p / big_sum k (likelihood A V row)));
      [|intros; apply py_div_ok; lra].
    eexists. split_and!; [done | by rewrite length_fmap |].
    intros c Hlt. rewrite list_lookup_fmap.
    rewrite (list_lookup_lookup_total_lt P0 c) by (rewrite Hlen; exact Hlt).
    cbn. rewrite Hc, lookup_total_replicate_2, Rmult_1_l by done. done.
Qed.

(** [zip] stops at the shortest argument: the columns of a row beyond
    those of the model are never read. *)
Lemma _predict_prob_take self row A V :
  avgs self = Some A → variances self = Some V →
  _predict_prob self row = _predict_prob self (take (length A) row).
Proof.
  intros HA HV. unfold _predict_prob. rewrite HA, HV.
  destruct (n_class self) as [k|]; [|done]. step_result.
  unfold zip3.
  replace (zip (take (length A) row) A) with (zip row A); [done|].
  symmetry. apply zip_with_take_l'. lia.
Qed.
End inference.

(** ** Estimation: [_get_avg_var] and [fit] *)

Lemma foldM_snoc {A B : Type} (body : B → A → result B) (l : list A) (x : A) :
  ∀ acc, foldM body acc (l ++ [x]) = acc' ← foldM body acc l; body acc' x.
Proof.
  induction l as [|z l IH]; intros acc; cbn [foldM app]; step_result.
  - destruct (body acc x); reflexivity.
  - destruct (body acc z) as [acc'|e]; step_result; [apply IH | reflexivity].
Qed.

Lemma py_getitem_nat {A : Type} (l : list A) (i : nat) (a : A) :
  l !! i = Some a → py_getitem l (Z.of_nat i) = Ok a.
Proof.
  intros Hi. pose proof (lookup_lt_Some _ _ _ Hi) as Hlt.
  unfold py_getitem, py_index. rewrite decide_True by lia. step_result.
  by rewrite Nat2Z.id, Hi.
Qed.

Section estimation.
Local Open Scope R_scope.
Context (X : list (list R)) (y : list Z) (m k : nat).
Hypothesis Hdata : dataset X y m k.

Lemma dataset_row i : (i < length X)%nat →
  ∃ row, X !! i = Some row ∧ X !!! i = row ∧ length row = m.
Proof.
  intros Hi. destruct (lookup_lt_is_Some_2 X i Hi) as [row Hrow].
  exists row. split_and!; [done | by apply list_lookup_total_correct |].
  destruct Hdata as (_ & Hm & _). by apply (proj1 (Forall_lookup _ _) Hm i).
Qed.

Lemma dataset_label i : (i < length X)%nat →
  ∃ c, y !! i = Some (Z.of_nat c) ∧ y !!! i = Z.of_nat c ∧ (c < k)%nat.
Proof.
  intros Hi. destruct Hdata as (_ & _ & Hy & Hk).
  destruct (lookup_lt_is_Some_2 y i) as [l Hl]; [lia|].
  pose proof (proj1 (Forall_lookup _ _) Hk i l Hl) as Hrange. cbn beta in Hrange.
  exists (Z.to_nat l). rewrite Z2Nat.id by lia.
  split_and!; [done | by apply list_lookup_total_correct | lia].
Qed.

Lemma dataset_rows_pos : (0 < length X)%nat.
Proof. destruct Hdata as (HX & _). destruct X; [done | cbn; lia]. Qed.

(** [l[c] += x] on a list of per-class sums over the first [i] rows. *)
Lemma py_iadd_label_sum g j i c x :
  (c < k)%nat → y !!! i = Z.of_nat c → (X !!! i) !!! j = x →
  py_iadd_item ((λ c, label_sum g X y j c i) <$> seq 0 k) (Z.of_nat c) (Ok (g x))
  = Ok ((λ c, label_sum g X y j c (S i)) <$> seq 0 k).
Proof.
  intros Hc Hy Hx. unfold py_iadd_item.
  rewrite (py_getitem_nat _ c (label_sum g X y j c i)); last first.
  { rewrite list_lookup_fmap, (proj2 (lookup_seq 0 k c c)); [done | lia]. }
  step_result. unfold py_setitem, py_index.
  rewrite length_fmap, length_seq, decide_True by lia. step_result.
  rewrite Nat2Z.id. f_equal. apply list_eq. intros c'.
  destruct (decide (c = c')) as [<-|Hne].
  - rewrite list_lookup_insert_eq by (rewrite length_fmap, length_seq; lia).
    rewrite list_lookup_fmap, (proj2 (lookup_seq 0 k c c)) by lia.
    cbn [fmap option_fmap option_map]. unfold label_sum. cbn [big_sum].
    by rewrite Hy, Hx, decide_True.
  - rewrite list_lookup_insert_ne, !list_lookup_fmap by done.
    destruct (seq 0 k !! c') as [c''|] eqn:Hc'; [|done].
    apply lookup_seq in Hc' as [-> _]. cbn [fmap option_fmap option_map Nat.add].
    unfold label_sum. cbn [big_sum]. rewrite Hy, decide_False by lia.
    f_equal. lra.
Qed.

(** The inner loop, over the first [i] rows. *)
Lemma column_loop j i :
  (j < m)%nat → (i ≤ length X)%nat →
  foldM (column_step X y j) (replicate k 0, replicate k 0) (seq 0 i)
  = Ok ((λ c, label_sum (λ x, x) X y j c i) <$> seq 0 k,
        (λ c, label_sum (λ x, x ^ 2) X y j c i) <$> seq 0 k).
Proof.
  intros Hj. induction i as [|i IH]; intros Hi.
  - change (seq 0 0) with (@nil nat). cbn [foldM].
    do 2 f_equal; apply list_eq; intros c.
    all: rewrite list_lookup_fmap; destruct (decide (c < k)%nat).
    all: try (rewrite lookup_replicate_2 by done;
              by rewrite (proj2 (lookup_seq 0 k c c)) by lia).
    all: rewrite (proj1 (lookup_replicate_None _ _ _)) by lia.
    all: by rewrite (lookup_ge_None_2 (seq 0 k) c) by (rewrite length_seq; lia).
  - rewrite seq_S, foldM_snoc, IH by lia. step_result. cbn [Nat.add].
    destruct (dataset_row i) as (row & HXi & HXi' & Hrow); [lia|].
    destruct (dataset_label i) as (c & Hyi & Hyi' & Hc); [lia|].
    destruct (lookup_lt_is_Some_2 row j) as [x Hx]; [lia|].
    unfold column_step.
    rewrite (py_getitem_nat _ _ _ Hyi), (py_getitem_nat _ _ _ HXi). step_result.
    rewrite (py_getitem_nat _ _ _ Hx). step_result.
    assert ((X !!! i) !!! j = x) as Hx'.
    { rewrite HXi'. by apply list_lookup_total_correct. }
    rewrite (py_iadd_label_sum (λ x, x) j i c x) by done. step_result.
    rewrite (py_iadd_label_sum (λ x, x ^ 2) j i c x) by done. done.
Qed.

Lemma zip_fmap_diag {C D E : Type} (f1 : C → D) (f2 : C → E) (l : list C) :
  zip (f1 <$> l) (f2 <$> l) = (λ c, (f1 c, f2 c)) <$> l.
Proof. induction l as [|c l IH]; [done|]. cbn. by f_equal. Qed.

Lemma total_rows_nonzero : INR (length X) ≠ 0.
Proof. apply not_0_INR. pose proof dataset_rows_pos. lia. Qed.

(** One turn of the outer loop appends the moments of column [j]. *)
Lemma feature_step_ok j a v :
  (j < m)%nat →
  feature_step X y k (length X) (a, v) j
  = Ok (a ++ [scaled_avg X y j <$> seq 0 k], v ++ [scaled_var X y j <$> seq 0 k]).
Proof.
  intros Hj. pose proof total_rows_nonzero as Hn. unfold feature_step.
  rewrite column_loop by done. step_result.
  rewrite (mapR_ok_fmap _ (λ x, x / INR (length X))) by (intros; by apply py_div_ok).
  step_result.
  rewrite (mapR_ok_fmap _ (λ q, q.1 / INR (length X) - q.2 ^ 2)); last first.
  { intros [x s] _. by rewrite py_div_ok. }
  step_result. rewrite <- list_fmap_compose, zip_fmap_diag, <- list_fmap_compose.
  done.
Qed.

Lemma moment_table_S f j :
  moment_table f (S j) k = moment_table f j k ++ [f j <$> seq 0 k].
Proof. unfold moment_table. by rewrite seq_S, fmap_app. Qed.

(** The outer loop, over the first [j] columns. *)
Lemma feature_loop j :
  (j ≤ m)%nat →
  foldM (feature_step X y k (length X)) ([], []) (seq 0 j)
  = Ok (moment_table (scaled_avg X y) j k, moment_table (scaled_var X y) j k).
Proof.
  induction j as [|j IH]; intros Hj; [done|].
  rewrite seq_S, foldM_snoc, IH by lia. step_result. cbn [Nat.add].
  rewrite feature_step_ok by lia. by rewrite !moment_table_S.
Qed.

Lemma _get_avg_var_ok :
  _get_avg_var X y k
  = Ok (moment_table (scaled_avg X y) m k, moment_table (scaled_var X y) m k).
Proof.
  unfold _get_avg_var.
  destruct (dataset_row 0 dataset_rows_pos) as (X0 & HX0 & _ & Hm).
  change 0%Z with (Z.of_nat 0). rewrite (py_getitem_nat _ _ _ HX0). step_result.
  rewrite Hm. by apply feature_loop.
Qed.
End estimation.

(** The object a successful [fit] leaves behind. *)
Lemma fit_ok (self : GaussianNB) (X : list (list R)) (y : list Z) (m : nat) :
  dataset X y m (size (_get_prior y)) →
  fit self X y =
  ({| prior := Some (_get_prior y);
      avgs := Some (moment_table (scaled_avg X y) m (size (_get_prior y)));
      variances := Some (moment_table (scaled_var X y) m (size (_get_prior y)));
      n_class := Some (size (_get_prior y)) |}, Ok ()).
Proof. intros Hdata. unfold fit. by rewrite (_get_avg_var_ok X y m). Qed.

Lemma moment_table_length f m k : length (moment_table f m k) = m.
Proof. unfold moment_table. by rewrite length_fmap, length_seq. Qed.

Lemma moment_table_entry f m k j c :
  j < m → c < k → entry (moment_table f m k) j c = Some (f j c).
Proof.
  intros Hj Hc. unfold entry, moment_table.
  rewrite list_lookup_fmap, (proj2 (lookup_seq 0 m j j)) by lia.
  cbn. by rewrite list_lookup_fmap, (proj2 (lookup_seq 0 k c c)) by lia.
Qed.

Lemma moment_table_columns f m k :
  Forall (λ col, length col = k) (moment_table f m k).
Proof.
  unfold moment_table. apply Forall_fmap, Forall_forall. intros j _. cbn.
  by rewrite length_fmap, length_seq.
Qed.

(** ** Algebra of the scaled moments *)

Section moments.
Local Open Scope R_scope.

Lemma big_sum_plus n f g :
  big_sum n (λ i, f i + g i) = big_sum n f + big_sum n g.
Proof. induction n as [|n IH]; cbn; [lra | rewrite IH; lra]. Qed.

Lemma big_sum_div n f d :
  big_sum n (λ i, f i / d) = big_sum n f / d.
Proof. induction n as [|n IH]; cbn; [lra | rewrite IH; lra]. Qed.

Lemma big_sum_zero n : big_sum n (λ _, 0) = 0.
Proof. induction n as [|n IH]; cbn; [lra | rewrite IH; lra]. Qed.

(** Exactly one class index below [k] is the label [c0]. *)
Lemma big_sum_one_label k c0 x :
  (c0 < k)%nat →
  big_sum k (λ c, if decide (Z.of_nat c0 = Z.of_nat c) then x else 0) = x.
Proof.
  induction k as [|k IH]; intros Hc; [lia|]. cbn [big_sum].
  destruct (decide (c0 = k)) as [->|Hne].
  - rewrite decide_True by done.
    rewrite (big_sum_ext _ _ (λ _, 0)), big_sum_zero; [lra|].
    intros c Hlt. by rewrite decide_False by lia.
  - rewrite IH, decide_False by lia. lra.
Qed.

(** The sum of squares dominates: for every [t],
    [sum (f i - t)^2 >= 0], expanded. *)
Lemma big_sum_sqr_shift n f t :
  0 <= big_sum n (λ i, f i ^ 2) - 2 * t * big_sum n f + INR n * t ^ 2.
Proof.
  induction n as [|n IH]; [cbn; lra|].
  rewrite S_INR. cbn [big_sum].
  pose proof (pow2_ge_0 (f n - t)). nra.
Qed.

Lemma mean_sqr_ge_sqr_mean n f :
  (0 < n)%nat →
  0 <= big_sum n (λ i, f i ^ 2) / INR n - (big_sum n f / INR n) ^ 2.
Proof.
  intros Hn. assert (0 < INR n) as HN by (apply lt_0_INR; lia).
  pose proof (big_sum_sqr_shift n f (big_sum n f / INR n)) as H.
  set (Q := big_sum n (λ i, f i ^ 2)) in *. set (S := big_sum n f) in *.
  replace (Q / INR n - (S / INR n) ^ 2)
    with ((Q - 2 * (S / INR n) * S + INR n * (S / INR n) ^ 2) / INR n)
    by (field; lra).
  apply Rmult_le_pos; [done|]. left. by apply Rinv_0_lt_compat.
Qed.

Context (X : list (list R)) (y : list Z) (m k : nat).
Hypothesis Hdata : dataset X y m k.

(** The per-class sums of a column add up to the sum of the column. *)
Lemma label_sum_classes j i :
  (i ≤ length X)%nat →
  big_sum k (λ c, label_sum (λ x, x) X y j c i) = big_sum i (λ r, (X !!! r) !!! j).
Proof.
  induction i as [|i IH]; intros Hi.
  - cbn. apply big_sum_zero.
  - destruct (dataset_label X y m k Hdata i) as (c0 & _ & Hy & Hc0); [lia|].
    transitivity (big_sum k (λ c, label_sum (λ x, x) X y j c i +
      (if decide (Z.of_nat c0 = Z.of_nat c) then (X !!! i) !!! j else 0))).
    + apply big_sum_ext. intros c _. unfold label_sum. cbn [big_sum].
      by rewrite Hy.
    + rewrite big_sum_plus, IH, big_sum_one_label by (done || lia). done.
Qed.

Lemma scaled_var_nonneg j c : 0 <= scaled_var X y j c.
Proof.
  unfold scaled_var, scaled_avg, class_sqr_sum, class_sum, label_sum.
  pose proof (mean_sqr_ge_sqr_mean (length X)
    (λ i, if decide (y !!! i = Z.of_nat c) then (X !!! i) !!! j else 0)
    (dataset_rows_pos X y m k Hdata)) as H.
  erewrite (big_sum_ext _ (λ i, if decide _ then _ ^ 2 else 0)); [exact H|].
  intros i _. cbn beta. case_decide; [done | lra].
Qed.
End moments.

Lemma fitted_variances_shape (X : list (list R)) (y : list Z) (m k : nat) :
  dataset X y m k →
  Forall (λ col, length col = k ∧ Forall (λ v, 0 <= v)%R col)
         (moment_table (scaled_var X y) m k).
Proof.
  intros Hdata. unfold moment_table. apply Forall_fmap, Forall_forall.
  intros j _. cbn. split; [by rewrite length_fmap, length_seq|].
  apply Forall_fmap, Forall_forall. intros c _. cbn.
  by apply (scaled_var_nonneg X y m k).
Qed.

(** ** Inference: how [_predict_prob] fails *)

Lemma foldM_only_raises {A B : Type} (body : B → A → result B) (l : list A) e :
  (∀ acc x e', x ∈ l → body acc x = Raise e' → e' = e) →
  ∀ acc e', foldM body acc l = Raise e' → e' = e.
Proof.
  induction l as [|x l IH]; intros Hall acc e'; cbn [foldM]; [done|].
  destruct (body acc x) as [acc'|e''] eqn:Hx; step_result.
  - apply IH. intros acc'' z e3 Hz. apply Hall. by right.
  - intros [= <-]. eapply Hall; [by left | done].
Qed.

Section failures.
Local Open Scope R_scope.
Implicit Types (probs row : list R) (A V : list (list R)).

(** A zero variance in front of a class that is still in the running
    stops the comprehension. *)
Lemma joint_step_zero_variance probs x a v c P :
  (c < length probs)%nat → (c < length a)%nat → v !! c = Some 0 →
  joint_step probs (x, a, v) = Ok P → False.
Proof.
  intros Hp Ha Hv HP. unfold joint_step in HP. apply mapR_Forall2 in HP.
  destruct (lookup_lt_is_Some_2 probs c Hp) as [p Hpc].
  destruct (lookup_lt_is_Some_2 a c Ha) as [avg Hac].
  assert (zip3 probs a v !! c = Some (p, avg, 0)) as Hz.
  { unfold zip3. rewrite !lookup_zip_with, Hpc, Hac, Hv. done. }
  destruct (Forall2_lookup_l _ _ _ _ _ HP Hz) as (b & _ & Hb).
  cbn beta iota in Hb. by rewrite _get_posterior_zero in Hb.
Qed.

Lemma joint_step_length probs x a v k P :
  length probs = k → length a = k → length v = k →
  joint_step probs (x, a, v) = Ok P → length P = k.
Proof.
  intros Hp Ha Hv HP. unfold joint_step in HP. apply mapR_length in HP.
  rewrite HP. unfold zip3. rewrite !length_zip_with. lia.
Qed.

Lemma joint_loop_zero_variance k row : ∀ A V probs j c v P,
  Forall (λ a, length a = k) A → Forall (λ v, length v = k) V →
  length probs = k →
  (j < length row)%nat → (j < length A)%nat → V !! j = Some v →
  (c < k)%nat → v !! c = Some 0 →
  foldM joint_step probs (zip3 row A V) = Ok P → False.
Proof.
  induction row as [|x row IH]; intros A V probs j c v P HA HV Hp Hj HjA Hv Hc Hvc;
    [cbn in Hj; lia|].
  destruct A as [|a A]; [cbn in HjA; lia|].
  destruct V as [|v0 V]; [done|].
  apply Forall_cons in HA as [Ha HA]. apply Forall_cons in HV as [Hv0 HV].
  unfold zip3. cbn [zip_with foldM]. fold (zip3 row A V).
  destruct (joint_step probs (x, a, v0)) as [P1|e] eqn:HP1; step_result; [|done].
  destruct j as [|j].
  - intros _. injection Hv as ->.
    eapply (joint_step_zero_variance probs x a v c); [lia | lia | done..].
  - apply (IH A V P1 j c v); [done | done | | cbn in Hj; lia | cbn in HjA; lia | done..].
    exact (joint_step_length probs x a v0 k P1 Hp Ha Hv0 HP1).
Qed.

Lemma joint_loop_length k row : ∀ A V probs P,
  Forall (λ a, length a = k) A → Forall (λ v, length v = k) V →
  length probs = k →
  foldM joint_step probs (zip3 row A V) = Ok P → length P = k.
Proof.
  induction row as [|x row IH]; intros A V probs P HA HV Hp.
  - cbn. by intros [= <-].
  - destruct A as [|a A]; [cbn; by intros [= <-]|].
    destruct V as [|v V]; [cbn; by intros [= <-]|].
    apply Forall_cons in HA as [Ha HA]. apply Forall_cons in HV as [Hv HV].
    unfold zip3. cbn [zip_with foldM]. fold (zip3 row A V).
    destruct (joint_step probs (x, a, v)) as [P1|e] eqn:HP1; step_result; [|done].
    apply IH; [done..|].
    exact (joint_step_length probs x a v k P1 Hp Ha Hv HP1).
Qed.

Lemma _predict_prob_length self row A V k P :
  n_class self = Some k → avgs self = Some A → variances self = Some V →
  Forall (λ a, length a = k) A → Forall (λ v, length v = k) V →
  _predict_prob self row = Ok P → length P = k.
Proof.
  intros Hk HA HV HAk HVk. unfold _predict_prob. rewrite Hk, HA, HV. step_result.
  destruct (foldM joint_step _ _) as [P0|e] eqn:Hloop; step_result; [|done].
  intros HP%mapR_length. rewrite HP.
  eapply joint_loop_length; [exact HAk | exact HVk | | exact Hloop].
  by rewrite length_replicate.
Qed.
End failures.

(** What [_predict_prob] raises, whatever the state of the object. *)
Lemma joint_step_raises probs item e :
  joint_step probs item = Raise e → e = ZeroDivisionError ∨ e = ValueError.
Proof.
  destruct item as [[x a] v]. unfold joint_step.
  intros ([[p avg] s] & _ & Hz)%mapR_Raise_inv.
  destruct (Rlt_dec s 0) as [Hneg|Hnn].
  - rewrite _get_posterior_neg in Hz by done. right. by injection Hz as <-.
  - destruct (Req_dec_T s 0) as [->|Hnz].
    + rewrite _get_posterior_zero in Hz. left. by injection Hz as <-.
    + rewrite _get_posterior_pos in Hz by lra. done.
Qed.

Lemma _predict_prob_raises self row e :
  _predict_prob self row = Raise e →
  (e = TypeError ∧
   (n_class self = None ∨ avgs self = None ∨ variances self = None)) ∨
  ((e = ZeroDivisionError ∨ e = ValueError) ∧
   is_Some (n_class self) ∧ is_Some (avgs self) ∧ is_Some (variances self)).
Proof.
  unfold _predict_prob.
  destruct (n_class self) as [k|]; [|intros [= <-]; left; auto].
  destruct (avgs self) as [A|]; [|intros [= <-]; left; auto].
  destruct (variances self) as [V|]; [|intros [= <-]; left; auto].
  step_result. intros Hrow. right. split; [|by split_and!].
  destruct (foldM joint_step _ _) as [P|e'] eqn:Hloop; step_result.
  - cbn [mbind result_bind] in Hrow.
    apply mapR_Raise_inv in Hrow as (p & _ & Hp). unfold py_div in Hp.
    destruct (Req_dec_T _ _); [|done]. left. by injection Hp as <-.
  - cbn [mbind result_bind] in Hrow. injection Hrow as <-.
    apply foldM_Raise_inv in Hloop as (acc & item & _ & Hstep).
    by eapply joint_step_raises.
Qed.

(** A stored variance [0] that a row reaches keeps [predict_prob] from
    returning, whatever the other variances are. *)
Lemma predict_prob_zero_variance
    (self : GaussianNB) (A V : list (list R)) (k j c : nat)
    (Xp : list (list R)) (row : list R) (PP : list (list R)) :
  n_class self = Some k → avgs self = Some A → variances self = Some V →
  Forall (λ a, length a = k) A → Forall (λ v, length v = k) V →
  j < length A → entry V j c = Some 0%R →
  row ∈ Xp → j < length row →
  predict_prob self Xp = Ok PP → False.
Proof.
  intros Hk HA HV HAk HVk HjA Hzero Hin Hj HPP.
  unfold predict_prob in HPP. apply mapR_Forall2 in HPP.
  apply list_elem_of_lookup in Hin as [i Hi].
  destruct (Forall2_lookup_l _ _ _ _ _ HPP Hi) as (P & _ & HP).
  unfold entry in Hzero. destruct (V !! j) as [v|] eqn:Hv; [|done]. cbn in Hzero.
  assert (c < k) as Hc.
  { rewrite <- (Forall_lookup_1 _ _ _ _ HVk Hv). by eapply lookup_lt_Some. }
  unfold _predict_prob in HP. rewrite Hk, HA, HV in HP.
  cbn [mbind result_bind not_None] in HP.
  destruct (foldM joint_step _ _) as [P0|e] eqn:Hloop; [|done].
  eapply (joint_loop_zero_variance k row A V _ j c v P0); try done.
  by rewrite length_replicate.
Qed.

(** The first density evaluated is that of the first column of the first
    row under class [0]: on the variance [0] the division [1 / sqrt(0)]
    raises before anything else is computed. *)
Lemma predict_prob_first_zero_variance
    (self : GaussianNB) (A V : list (list R)) (k : nat)
    (x : R) (row : list R) (Xr : list (list R)) :
  n_class self = Some k → avgs self = Some A → variances self = Some V →
  Forall (λ a, length a = k) A → Forall (λ v, length v = k) V →
  0 < length A → entry V 0 0 = Some 0%R →
  predict_prob self ((x :: row) :: Xr) = Raise ZeroDivisionError.
Proof.
  intros Hk HA HV HAk HVk HlA Hzero.
  destruct A as [|a A]; [cbn in HlA; lia|].
  destruct V as [|v V]; [done|]. destruct v as [|s v]; [done|].
  cbn in Hzero. injection Hzero as ->.
  apply Forall_cons in HAk as [Ha _]. apply Forall_cons in HVk as [Hv _].
  destruct k as [|k]; [done|]. destruct a as [|avg a]; [done|].
  unfold predict_prob. cbn [mapR]. unfold _predict_prob. rewrite Hk, HA, HV.
  step_result. unfold zip3. cbn [replicate zip_with foldM].
  assert (joint_step (1%R :: replicate k 1%R) (x, avg :: a, 0%R :: v)
          = Raise ZeroDivisionError) as ->.
  { unfold joint_step, zip3. cbn [zip_with mapR]. by rewrite _get_posterior_zero. }
  reflexivity.
Qed.

(** A model fitted on a dataset has at least one class, and each row that
    [predict_prob] returns has one entry per class. *)
Lemma dataset_classes_pos (X : list (list R)) (y : list Z) (m k : nat) :
  dataset X y m k → 0 < k.
Proof.
  intros Hdata.
  destruct (dataset_label X y m k Hdata 0) as (c & _ & _ & Hc); [|lia].
  by apply (dataset_rows_pos X y m k).
Qed.

Lemma fitted_rows_nonempty
    (self : GaussianNB) (X : list (list R)) (y : list Z) (m : nat)
    (Xp PP : list (list R)) :
  dataset X y m (size (_get_prior y)) →
  predict_prob (fit self X y).1 Xp = Ok PP → Forall (λ p, p ≠ []) PP.
Proof.
  intros Hdata. rewrite (fit_ok self X y m Hdata). cbn [fst].
  pose proof (dataset_classes_pos X y m _ Hdata) as Hk.
  intros HPP%mapR_Forall2. apply Forall_forall. intros P HP ->.
  apply list_elem_of_lookup in HP as [i HP].
  destruct (Forall2_lookup_r _ _ _ _ _ HPP HP) as (row & _ & Hrow).
  eapply _predict_prob_length in Hrow;
    [| reflexivity | reflexivity | reflexivity | apply moment_table_columns..].
  cbn in Hrow. lia.
Qed.

(** ** Prediction: [max] over [enumerate] *)

Section argmax.
Local Open Scope R_scope.
Implicit Types (p : list R).

Lemma enumerate_snoc p x : enumerate (p ++ [x]) = enumerate p ++ [(length p, x)].
Proof.
  unfold enumerate. rewrite length_app, Nat.add_1_r, seq_S.
  rewrite zip_with_app by (by rewrite length_seq). done.
Qed.

Lemma py_max_snoc {A : Type} (key : A → R) (l : list A) (a : A) :
  l ≠ [] →
  py_max key (l ++ [a])
  = (λ best, if Rlt_dec (key best) (key a) then a else best) <$> py_max key l.
Proof.
  destruct l as [|x l]; [done|]. intros _. cbn [py_max app].
  rewrite foldl_app. done.
Qed.

Lemma py_max_enumerate p :
  p ≠ [] →
  ∃ i v, py_max snd (enumerate p) = Ok (i, v) ∧ p !! i = Some v ∧
    (∀ j w, p !! j = Some w → w <= v) ∧
    (∀ j w, (j < i)%nat → p !! j = Some w → w < v).
Proof.
  induction p as [|x p IH] using rev_ind; [done|]. intros _.
  destruct (decide (p = [])) as [->|Hp].
  - exists 0%nat, x. cbn. split_and!; [done | done | |].
    + intros [|j] w; cbn; [intros [= ->]; lra | done].
    + intros j w Hj. lia.
  - destruct (IH Hp) as (i & v & Hmax & Hi & Hle & Hlt).
    assert (enumerate p ≠ []) as Hne.
    { unfold enumerate. destruct p; [done|]. cbn. done. }
    rewrite enumerate_snoc, py_max_snoc, Hmax by done.
    cbn [fmap result_fmap snd]. pose proof (lookup_lt_Some _ _ _ Hi) as Hilen.
    destruct (Rlt_dec v x) as [Hvx|Hvx].
    + exists (length p), x. split_and!; [done | | |].
      * by rewrite lookup_app_r, Nat.sub_diag by lia.
      * intros j w Hj. apply lookup_app_Some in Hj as [Hj|[_ Hj]].
        -- specialize (Hle j w Hj). lra.
        -- destruct (j - length p)%nat; cbn in Hj; [|done].
           injection Hj as ->. lra.
      * intros j w Hjlt Hj. rewrite lookup_app_l in Hj by done.
        specialize (Hle j w Hj). lra.
    + exists i, v. split_and!; [done | | |].
      * by rewrite lookup_app_l.
      * intros j w Hj. apply lookup_app_Some in Hj as [Hj|[_ Hj]].
        -- by apply (Hle j).
        -- destruct (j - length p)%nat; cbn in Hj; [|done].
           injection Hj as ->. lra.
      * intros j w Hjlt Hj. rewrite lookup_app_l in Hj by lia.
        by apply (Hlt j).
Qed.

Lemma argmax_first p :
  p ≠ [] → ∃ i, fst <$> py_max snd (enumerate p) = Ok i ∧ is_first_max p i.
Proof.
  intros Hp. destruct (py_max_enumerate p Hp) as (i & v & -> & Hi & Hle & Hlt).
  exists i. split; [done|]. by exists v.
Qed.

(** The index of the first maximum is unique. *)
Lemma is_first_max_unique p i i' :
  is_first_max p i → is_first_max p i' → i = i'.
Proof.
  intros (v & Hi & Hle & Hlt) (v' & Hi' & Hle' & Hlt').
  destruct (Nat.lt_trichotomy i i') as [H|[H|H]]; [|done|].
  - specialize (Hlt' i v H Hi). specialize (Hle i' v' Hi'). lra.
  - specialize (Hlt i' v' H Hi'). specialize (Hle' i v Hi). lra.
Qed.
End argmax.

(** ** Three small datasets and the models [fit] builds from them *)

Lemma y_two_classes : size (_get_prior y_two) = 2.
Proof. unfold _get_prior. by rewrite Counter_size. Qed.

Lemma dataset_two : dataset X_two y_two 1 (size (_get_prior y_two)).
Proof.
  rewrite y_two_classes. unfold dataset, X_two, y_two.
  split_and!; [done | by repeat constructor | done |].
  repeat constructor; lia.
Qed.

Lemma mapR_exists {A B : Type} (f : A → result B) (Q : A → B → Prop) (l : list A) :
  Forall (λ x, ∃ b, f x = Ok b ∧ Q x b) l →
  ∃ bs, mapR f l = Ok bs ∧ Forall2 Q l bs.
Proof.
  induction 1 as [|x l (b & Hb & HQ) _ (bs & Hbs & HQs)].
  - by exists [].
  - exists (b :: bs). cbn [mapR]. rewrite Hb, Hbs. by split; [|constructor].
Qed.


Lemma fit_two : fit __init__ X_two y_two = (model_two, Ok ()).
Proof.
  rewrite (fit_ok _ _ _ 1 dataset_two), y_two_classes. unfold model_two, moment_table.
  cbn [seq fmap list_fmap]. repeat f_equal; eval_moment.
Qed.

Lemma y_const_classes : size (_get_prior y_const) = 2.
Proof. unfold _get_prior. by rewrite Counter_size. Qed.

Lemma dataset_zero : dataset X_zero y_two 1 (size (_get_prior y_two)).
Proof.
  rewrite y_two_classes. unfold dataset, X_zero, y_two.
  split_and!; [done | by repeat constructor | done |].
  repeat constructor; lia.
Qed.

Lemma dataset_const : dataset X_const y_const 1 (size (_get_prior y_const)).
Proof.
  rewrite y_const_classes. unfold dataset, X_const, y_const.
  split_and!; [done | by repeat constructor | done |].
  repeat constructor; lia.
Qed.

Lemma fit_zero : fit __init__ X_zero y_two = (model_zero, Ok ()).
Proof.
  rewrite (fit_ok _ _ _ 1 dataset_zero), y_two_classes. unfold model_zero, moment_table.
  cbn [seq fmap list_fmap]. repeat f_equal; eval_moment.
Qed.

Lemma fit_const : fit __init__ X_const y_const = (model_const, Ok ()).
Proof.
  rewrite (fit_ok _ _ _ 1 dataset_const), y_const_classes.
  unfold model_const, moment_table.
  cbn [seq fmap list_fmap]. repeat f_equal; eval_moment.
Qed.

Lemma positive_two : Forall (positive_column 2) [[1 / 4; 9 / 4]]%R.
Proof. repeat constructor; lra. Qed.

(** In the exact model [model_two] answers every row, whatever its
    length. *)
Lemma model_two_row (row : list R) :
  ∃ P, _predict_prob model_two row = Ok P ∧ length P = 2.
Proof.
  rewrite (_predict_prob_take model_two row
             [[1 / 2; 3 / 2]]%R [[1 / 4; 9 / 4]]%R) by reflexivity.
  destruct (_predict_prob_ok model_two (take 1 row)
              [[1 / 2; 3 / 2]]%R [[1 / 4; 9 / 4]]%R 2) as (P & HP & Hl & _);
    [reflexivity | reflexivity | reflexivity
    | rewrite length_take; cbn [length]; lia
    | rewrite length_take; cbn [length]; lia
    | repeat constructor | exact positive_two | eauto].
Qed.

Lemma positive_const : Forall (positive_column 2) [[25 / 4; 3 / 2]]%R.
Proof. repeat constructor; lra. Qed.

Lemma y_six_classes : size (_get_prior y_six) = 2.
Proof. unfold _get_prior. by rewrite Counter_size. Qed.

Lemma dataset_six : dataset X_six y_six 1 (size (_get_prior y_six)).
Proof.
  rewrite y_six_classes. unfold dataset, X_six, y_six.
  split_and!; [done | by repeat constructor | done |].
  repeat constructor; lia.
Qed.

(** ** Running the model *)

(** Negative indices count from the end; an index past the end raises. *)
Example py_getitem_last : py_getitem [10; 20; 30]%Z (-1) = Ok 30%Z.
Proof. reflexivity. Qed.

Example py_getitem_past_end : py_getitem [10; 20; 30]%Z 3 = Raise IndexError.
Proof. reflexivity. Qed.

Example Counter_three : Counter [0; 1; 1]%Z !! 1%Z = Some 2.
Proof. by rewrite Counter_lookup. Qed.

(** [max] keeps the first of two equal entries. *)
Example argmax_tie : fst <$> py_max snd (enumerate [1; 2; 2]%R) = Ok 1.
Proof.
  unfold py_max, enumerate. cbn [length seq zip_with foldl snd].
  destruct (Rlt_dec 1 2) as [_|H]; [cbn [snd] | lra].
  destruct (Rlt_dec 2 2) as [H|_]; [lra | reflexivity].
Qed.

(** Without rows there is no [X[0]]; the prior and [n_class] are stored
    all the same. *)
Example fit_no_rows :
  fit __init__ [] []
  = ({| prior := Some ∅; avgs := None; variances := None; n_class := Some 0 |},
     Raise IndexError).
Proof. reflexivity. Qed.

(** A label that is not below the number of distinct labels is out of the
    range of the per-class sums. *)
Example fit_label_out_of_range :
  (fit __init__ X_two [0; 2]%Z).2 = Raise IndexError.
Proof.
  unfold fit. replace (size (_get_prior [0; 2]%Z)) with 2
    by (unfold _get_prior; by rewrite Counter_size).
  reflexivity.
Qed.

(** The scenario of the specification: each class sum is divided by the six
    rows, not by the three rows of the class. *)
Example fit_six :
  avgs (fit __init__ X_six y_six).1 = Some [[1 / 2; 5]]%R ∧
  variances (fit __init__ X_six y_six).1 = Some [[79 / 300; 1876 / 75]]%R.
Proof.
  rewrite (fit_ok _ _ _ 1 dataset_six), y_six_classes. unfold moment_table.
  cbn [fst avgs variances seq fmap list_fmap].
  split; repeat f_equal; unfold X_six, y_six; eval_moment.
Qed.

(** ** The inference path over any arithmetic: one class at a time *)




Section interchange.
Context {A B : Type} `{!Inhabited B} (k : nat) (step : nat → B → A → result B).

End interchange.

Section any_arithmetic.
Context {num : Type} `{!Arithmetic num}.
Implicit Types (probs row : list num) (A V : list (list num)).

#[local] Instance any_num_inhabited : Inhabited num := populate num_zero.




End any_arithmetic.

(** The exact model is the inference path over [exact_arithmetic]. *)
Lemma Py_get_posterior_exact (x avg var : R) :
  Py._get_posterior x avg var = _get_posterior x avg var.
Proof.
  unfold Py._get_posterior, _get_posterior. cbn [num_mul num_two num_pi num_sqrt
    num_div num_one num_sub num_sqr num_neg num_exp exact_arithmetic].
  step_result. destruct (py_sqrt _) as [s|e]; step_result; [|done].
  destruct (py_div 1 s) as [a|e]; step_result; [|done].
  by destruct (py_div _ _) as [b|e].
Qed.

Lemma Py_sum_exact (l : list R) : Py.py_sum l = Ok (py_sum l).
Proof.
  unfold Py.py_sum, py_sum. cbn [num_zero exact_arithmetic]. generalize 0%R.
  induction l as [|x l IH]; intros acc; [done|]. cbn [foldM foldl]. apply IH.
Qed.

Lemma mapR_ext {A B : Type} (f g : A → result B) (l : list A) :
  (∀ x, f x = g x) → mapR f l = mapR g l.
Proof. intros Hfg. induction l as [|x l IH]; [done|]. cbn [mapR]. by rewrite Hfg, IH. Qed.

Lemma Py_joint_step_exact (probs : list R) (item : R * list R * list R) :
  Py.joint_step probs item = joint_step probs item.
Proof.
  destruct item as [[x a] v]. unfold Py.joint_step, joint_step.
  apply mapR_ext. intros [[prob avg] var]. by rewrite Py_get_posterior_exact.
Qed.

Lemma Py_predict_prob_row_exact (self : GaussianNB) (row : list R) :
  Py._predict_prob (of_exact self) row = _predict_prob self row.
Proof.
  unfold Py._predict_prob, _predict_prob, of_exact.
  cbn [Py.n_class Py.avgs Py.variances].
  destruct (n_class self) as [k|]; [|done].
  destruct (avgs self) as [A|]; [|done].
  destruct (variances self) as [V|]; [|done]. step_result.
  rewrite (foldM_agree (λ _, True) Py.joint_step joint_step);
    [|done | intros; apply Py_joint_step_exact | done].
  destruct (foldM joint_step _ _) as [probs|e]; step_result; [|done].
  rewrite Py_sum_exact. step_result. done.
Qed.

Lemma Py_predict_prob_exact (self : GaussianNB) (X : list (list R)) :
  Py.predict_prob (of_exact self) X = predict_prob self X.
Proof.
  unfold Py.predict_prob, predict_prob. apply mapR_ext, Py_predict_prob_row_exact.
Qed.

(** ** Two limits of [float] in the inference path *)

Lemma limited_get_posterior_underflow (x avg var : R) :
  (0 < var)%R → (Rabs (x - avg) < 10 ^ 154)%R →
  (- (x - avg) ^ 2 / (2 * var) < -745)%R →
  @Py._get_posterior R limited_arithmetic x avg var
  = Ok (1 / sqrt (2 * PI * var) * 0)%R.
Proof.
  intros Hv Hx Hfar. pose proof (two_pi_var_pos var Hv) as H2.
  unfold Py._get_posterior.
  cbn [num_mul num_two num_pi num_sqrt num_div num_one num_sub num_sqr num_neg
       num_exp limited_arithmetic].
  step_result. rewrite py_sqrt_ok by lra. step_result.
  rewrite (py_div_ok 1) by (pose proof (sqrt_lt_R0 _ H2); lra). step_result.
  destruct (Rlt_dec (Rabs (x - avg)) (10 ^ 154)) as [_|?]; [|done]. step_result.
  rewrite py_div_ok by lra. step_result.
  by destruct (Rlt_dec (- (x - avg) ^ 2 / (2 * var)) (-745)).
Qed.

Lemma thousand_in_range (avg : R) :
  (0 <= avg <= 2)%R → (Rabs (1000 - avg) < 10 ^ 154)%R.
Proof.
  intros Havg. apply Rlt_le_trans with (10 ^ 4)%R.
  - rewrite Rabs_pos_eq by lra. cbn [pow]. lra.
  - apply Rle_pow; [lra | lia].
Qed.

(** On the model fitted on [X_two] every density of the row [[1000]]
    underflows to [0], so does the sum of the two entries, and the
    normalisation divides by zero. *)
Example limited_predict_prob_underflow :
  @Py.predict_prob R limited_arithmetic (of_exact model_two) [[1000]]%R
  = Raise ZeroDivisionError.
Proof.
  unfold Py.predict_prob, Py._predict_prob, of_exact, model_two.
  cbn [mapR Py.n_class Py.avgs Py.variances n_class avgs variances not_None
       mbind result_bind replicate zip3 zip_with foldM Py.joint_step].
  rewrite !limited_get_posterior_underflow;
    try apply thousand_in_range; try lra.
  cbn [num_mul limited_arithmetic mbind result_bind].
  unfold Py.py_sum. cbn [foldM num_add num_zero limited_arithmetic mbind result_bind].
  cbn [mapR num_div num_one limited_arithmetic].
  match goal with |- context [py_div _ ?s] => replace s with 0%R by ring end.
  rewrite !py_div_zero. reflexivity.
Qed.

(** The square of a difference of [10^200] is out of range: nothing is
    returned, although the variance is positive. *)
Example limited_get_posterior_overflow :
  @Py._get_posterior R limited_arithmetic (10 ^ 200)%R 0%R 1%R
  = Raise OverflowError.
Proof.
  unfold Py._get_posterior.
  cbn [num_mul num_two num_pi num_sqrt num_div num_one num_sub num_sqr num_neg
       num_exp limited_arithmetic].
  step_result. pose proof (two_pi_var_pos 1 ltac:(lra)) as H2.
  rewrite py_sqrt_ok by lra. step_result.
  rewrite (py_div_ok 1) by (pose proof (sqrt_lt_R0 _ H2); lra). step_result.
  destruct (Rlt_dec _ _) as [Hlt|_]; [|done]. exfalso.
  rewrite Rminus_0_r, Rabs_pos_eq in Hlt by (apply pow_le; lra).
  assert (10 ^ 154 <= 10 ^ 200)%R by (apply Rle_pow; [lra | lia]). lra.
Qed.

(** ** Results: estimation *)

(** C5. [_get_prior] maps each label that occurs in [y] to the number of
    times it occurs, as a plain count, and holds no other key; [fit] stores
    this mapping and sets [n_class] to its number of keys, which is the
    number of distinct labels of [y]. *)
Theorem prior_counts_labels (self : GaussianNB) (X : list (list R)) (y : list Z) :
  (∀ k : Z, _get_prior y !! k
            = if decide (k ∈ y) then Some (occurrences k y) else None)
  ∧ prior (fit self X y).1 = Some (_get_prior y)
  ∧ n_class (fit self X y).1 = Some (size (_get_prior y))
  ∧ size (_get_prior y) = length (remove_dups y).
Proof.
  split_and!.
  - apply Counter_lookup.
  - unfold fit. by destruct (_get_avg_var _ _ _) as [[? ?]|?].
  - unfold fit. by destruct (_get_avg_var _ _ _) as [[? ?]|?].
  - apply Counter_size.
Qed.



(** C9. On a dataset, the fitted means of a column, summed over the classes,
    give the mean of that column over all rows. *)
Theorem class_avgs_sum_to_column_mean
    (self : GaussianNB) (X : list (list R)) (y : list Z) (m j : nat) :
  dataset X y m (size (_get_prior y)) → j < m →
  ∃ A col,
    avgs (fit self X y).1 = Some A ∧ A !! j = Some col ∧
    length col = size (_get_prior y) ∧
    py_sum col = column_mean X j.
Proof.
  intros Hdata Hj. rewrite (fit_ok self X y m Hdata). cbn [fst avgs].
  set (k := size (_get_prior y)) in *.
  exists (moment_table (scaled_avg X y) m k), (scaled_avg X y j <$> seq 0 k).
  split_and!; [done | | by rewrite length_fmap, length_seq |].
  - unfold moment_table. by rewrite list_lookup_fmap, (proj2 (lookup_seq 0 m j j)) by lia.
  - rewrite py_sum_big_sum, length_fmap, length_seq.
    rewrite (big_sum_ext _ _ (λ c, label_sum (λ x, x) X y j c (length X) / INR (length X))%R).
    + rewrite big_sum_div, (label_sum_classes X y m k Hdata) by done. done.
    + intros c Hc. apply list_lookup_total_correct.
      by rewrite list_lookup_fmap, (proj2 (lookup_seq 0 k c c)) by lia.
Qed.

Lemma class_avgs_sum_to_column_mean_witness :
  dataset X_two y_two 1 (size (_get_prior y_two)) ∧ 0 < 1 ∧
  ∃ A col,
    avgs (fit __init__ X_two y_two).1 = Some A ∧ A !! 0 = Some col ∧
    length col = size (_get_prior y_two) ∧
    py_sum col = column_mean X_two 0.
Proof.
  split; [exact dataset_two|]. split; [lia|].
  apply (class_avgs_sum_to_column_mean __init__ X_two y_two 1 0); [exact dataset_two | lia].
Defined.

(** C10. On a dataset, every variance that [fit] stores is non-negative. *)
Theorem fitted_variances_nonnegative
    (self : GaussianNB) (X : list (list R)) (y : list Z) (m : nat) :
  dataset X y m (size (_get_prior y)) →
  ∃ V,
    variances (fit self X y).1 = Some V ∧ length V = m ∧
    Forall (λ col, length col = size (_get_prior y) ∧ Forall (λ v, 0 <= v)%R col) V.
Proof.
  intros Hdata. rewrite (fit_ok self X y m Hdata). cbn [fst variances].
  eexists. split_and!; [done | apply moment_table_length |].
  by apply fitted_variances_shape.
Qed.

Lemma fitted_variances_nonnegative_witness :
  dataset X_two y_two 1 (size (_get_prior y_two)) ∧
  ∃ V,
    variances (fit __init__ X_two y_two).1 = Some V ∧ length V = 1 ∧
    Forall (λ col, length col = size (_get_prior y_two) ∧
                   Forall (λ v, 0 <= v)%R col) V.
Proof.
  split; [exact dataset_two|].
  apply (fitted_variances_nonnegative __init__ X_two y_two 1). exact dataset_two.
Defined.

(** ** Results: the density evaluator *)




(** ** Results: inference *)



(** C3. Whenever [predict_prob] returns rows that are not empty, as it does
    on every model fitted on a dataset, [predict] returns for each of them
    the index of its first maximal entry: no entry of the row is greater and
    every earlier entry is strictly smaller.  These indices are the only
    ones with that property, and they are the same for every value of
    [threshold]. *)
Theorem predict_is_first_argmax
    (self : GaussianNB) (X : list (list R)) (threshold : R) (PP : list (list R)) :
  predict_prob self X = Ok PP → Forall (λ p, p ≠ []) PP →
  ∃ L, predict self X threshold = Ok L ∧ Forall2 is_first_max PP L ∧
    (∀ L', Forall2 is_first_max PP L' → L' = L) ∧
    ∀ threshold', predict self X threshold' = Ok L.
Proof.
  intros HPP Hne.
  destruct (mapR_exists (λ y, fst <$> py_max snd (enumerate y)) is_first_max PP)
    as (L & HL & Hfirst).
  { eapply Forall_impl; [exact Hne|]. intros p Hp. by apply argmax_first. }
  exists L. unfold predict. rewrite HPP. split_and!; [done | done | | done].
  clear HL HPP Hne. induction Hfirst as [|p i PP' L Hi _ IH]; intros L' HL'.
  - by apply Forall2_nil_inv_l in HL'.
  - apply Forall2_cons_inv_l in HL' as (i' & L'' & Hi' & HL'' & ->).
    f_equal; [by apply (is_first_max_unique p) | by apply IH].
Qed.

Lemma predict_is_first_argmax_witness :
  ∃ PP, predict_prob model_two [[1]; [3]]%R = Ok PP ∧ Forall (λ p, p ≠ []) PP ∧
    ∃ L, predict model_two [[1]; [3]]%R (1 / 2) = Ok L ∧
      Forall2 is_first_max PP L ∧
      (∀ L', Forall2 is_first_max PP L' → L' = L) ∧
      ∀ threshold', predict model_two [[1]; [3]]%R threshold' = Ok L.
Proof.
  destruct (mapR_exists (_predict_prob model_two) (λ _ P, length P = 2)
              [[1]; [3]]%R) as (PP & HPP & Hlen).
  { apply Forall_forall. intros row _. apply model_two_row. }
  assert (Forall (λ p : list R, p ≠ []) PP) as Hne.
  { clear HPP. induction Hlen as [|row P X' PP' HP _ IH]; constructor; [|done].
    by destruct P. }
  exists PP. split_and!; [exact HPP | exact Hne |].
  exact (predict_is_first_argmax model_two [[1]; [3]]%R (1 / 2) PP HPP Hne).
Defined.




(** C7, amended.  On a model of [k] classes that stores the variance [0]
    for column [j] and class [c], no call of [predict_prob] or [predict] on
    an input with a row of more than [j] columns returns: each of them
    raises.  When that variance is the first one read, [j = 0] and [c = 0]
    with a first row that has a column, what [predict_prob] raises is
    [ZeroDivisionError]. *)
Theorem zero_variance_raises
    (self : GaussianNB) (A V : list (list R)) (k j c : nat)
    (Xp : list (list R)) (threshold : R) :
  n_class self = Some k → avgs self = Some A → variances self = Some V →
  Forall (λ a, length a = k) A → Forall (λ v, length v = k) V →
  j < length A → entry V j c = Some 0%R →
  Exists (λ row, j < length row) Xp →
  (∀ PP, predict_prob self Xp ≠ Ok PP) ∧
  (∀ L, predict self Xp threshold ≠ Ok L) ∧
  (j = 0 → c = 0 → (∃ x row Xr, Xp = (x :: row) :: Xr) →
   predict_prob self Xp = Raise ZeroDivisionError).
Proof.
  intros Hk HA HV HAk HVk HjA Hzero Hrow.
  assert (∀ PP, predict_prob self Xp ≠ Ok PP) as Hnever.
  { intros PP HPP. apply Exists_exists in Hrow as (row & Hin & Hj).
    by apply (predict_prob_zero_variance self A V k j c Xp row PP). }
  split_and!; [done | |].
  - intros L HL. unfold predict in HL.
    destruct (predict_prob self Xp) as [PP|e] eqn:HPP; [|done].
    by apply (Hnever PP).
  - intros -> -> (x & row & Xr & ->).
    by apply (predict_prob_first_zero_variance self A V k x row Xr).
Qed.

Lemma zero_variance_raises_witness :
  (∀ PP, predict_prob model_zero [[4]; []]%R ≠ Ok PP) ∧
  (∀ L, predict model_zero [[4]; []]%R (1 / 2) ≠ Ok L) ∧
  (0 = 0 → 0 = 0 → (∃ x row Xr, [[4]; []]%R = (x :: row) :: Xr) →
   predict_prob model_zero [[4]; []]%R = Raise ZeroDivisionError).
Proof.
  apply (zero_variance_raises model_zero [[0; 1 / 2]]%R [[0; 1 / 4]]%R 2 0 0
           [[4]; []]%R (1 / 2));
    [reflexivity | reflexivity | reflexivity | by repeat constructor
    | by repeat constructor | cbn; lia | reflexivity |].
  left. cbn. lia.
Defined.

(** C7 as stated fails.  On [X_const] the column is constant on class [0],
    yet with the sums divided by all four rows the stored variance is
    [25/4], not [0], and [predict_prob] returns.  On [X_zero] the stored
    variance of class [0] is [0], yet [predict_prob] returns on an input
    without rows and on a row without columns. *)
Lemma constant_class_column_returns :
  (fit __init__ X_const y_const = (model_const, Ok ()) ∧
   constant_in_class X_const y_const 0 0 ∧
   ∃ PP, predict_prob model_const [[5]]%R = Ok PP)
  ∧
  (fit __init__ X_zero y_two = (model_zero, Ok ()) ∧
   constant_in_class X_zero y_two 0 0 ∧
   predict_prob model_zero [] = Ok [] ∧
   predict_prob model_zero [[]] = Ok [[1 / 2; 1 / 2]]%R).
Proof.
  split; split_and!.
  - exact fit_const.
  - exists 5%R. intros [|[|[|[|i]]]] row Hy HX; cbn in Hy, HX; try done.
    all: by injection HX as <-.
  - destruct (_predict_prob_ok model_const [5]%R
                [[5 / 2; 1]]%R [[25 / 4; 3 / 2]]%R 2) as (P & HP & _);
      [reflexivity | reflexivity | reflexivity | cbn; lia | cbn; lia
      | repeat constructor | exact positive_const |].
    exists [P]. unfold predict_prob. cbn [mapR]. by rewrite HP.
  - exact fit_zero.
  - exists 0%R. intros [|[|i]] row Hy HX; cbn in Hy, HX; try done.
    by injection HX as <-.
  - reflexivity.
  - unfold predict_prob, _predict_prob, model_zero, py_sum.
    cbn [mapR n_class avgs variances not_None mbind result_bind replicate
         zip3 zip_with foldM foldl].
    rewrite !py_div_ok by lra. cbn [mbind result_bind].
    repeat f_equal; lra.
Qed.

(** C8, amended.  On a classifier that was never fitted, every call of
    [predict_prob] or [predict] on an input with at least one row raises
    [TypeError] at the first read of [n_class]. *)
Theorem unfitted_predict_raises (X : list (list R)) (threshold : R) :
  X ≠ [] →
  predict_prob __init__ X = Raise TypeError ∧
  predict __init__ X threshold = Raise TypeError.
Proof. destruct X as [|row X]; [done|]. intros _. by split. Qed.

Lemma unfitted_predict_raises_witness :
  predict_prob __init__ [[1]]%R = Raise TypeError ∧
  predict __init__ [[1]]%R (1 / 2) = Raise TypeError.
Proof. apply (unfitted_predict_raises [[1]]%R (1 / 2)). discriminate. Defined.

(** C8 as stated fails on an input without rows: no stored parameter is
    read and the empty list is returned. *)
Lemma unfitted_predict_no_rows :
  predict_prob __init__ [] = Ok [] ∧ predict __init__ [] (1 / 2) = Ok [].
Proof. by split. Qed.


(** * Further properties of the class *)

(** ** What [fit] raises *)

Lemma py_index_only (len : nat) (i : Z) (e : exn) :
  py_index len i = Raise e → e = IndexError.
Proof. unfold py_index. repeat case_decide; [done | done | by intros [= <-]]. Qed.

Lemma py_index_Ok (len : nat) (i : Z) (k : nat) :
  py_index len i = Ok k ↔
  (- Z.of_nat len ≤ i < Z.of_nat len)%Z ∧
  k = Z.to_nat (if decide (0 ≤ i)%Z then i else Z.of_nat len + i)%Z.
Proof.
  unfold py_index. repeat case_decide; split; try (intros [= <-]); try done; try lia.
  all: try (intros [_ ->]; f_equal; lia).
  all: split; [lia | f_equal; lia].
Qed.

Lemma py_getitem_only {A : Type} (l : list A) (i : Z) (e : exn) :
  py_getitem l i = Raise e → e = IndexError.
Proof.
  unfold py_getitem. destruct (py_index _ _) as [k|e'] eqn:Hk; step_result.
  - destruct (l !! k); [done | by intros [= <-]].
  - intros [= <-]. by eapply py_index_only.
Qed.

Lemma py_setitem_only {A : Type} (l : list A) (i : Z) (a : A) (e : exn) :
  py_setitem l i a = Raise e → e = IndexError.
Proof.
  unfold py_setitem. destruct (py_index _ _) as [k|e'] eqn:Hk; step_result; [done|].
  intros [= <-]. by eapply py_index_only.
Qed.

Lemma py_iadd_item_only (l : list R) (i : Z) (rhs : result R) (e : exn) :
  (∀ e', rhs = Raise e' → e' = IndexError) →
  py_iadd_item l i rhs = Raise e → e = IndexError.
Proof.
  intros Hrhs. unfold py_iadd_item.
  destruct (py_getitem l i) as [old|e'] eqn:Hold; step_result;
    [|intros [= <-]; by eapply py_getitem_only].
  destruct rhs as [v|e']; step_result; [apply py_setitem_only|].
  intros [= <-]. by apply Hrhs.
Qed.

Lemma column_step_only X y j acc i e :
  column_step X y j acc i = Raise e → e = IndexError.
Proof.
  destruct acc as [fs fq]. unfold column_step.
  assert (∀ e', (Xi ← py_getitem X (Z.of_nat i); py_getitem Xi (Z.of_nat j))
                = Raise e' → e' = IndexError) as HX.
  { intros e'. destruct (py_getitem X _) as [Xi|e''] eqn:HXi; step_result.
    - apply py_getitem_only.
    - intros [= <-]. by eapply py_getitem_only. }
  destruct (py_getitem y _) as [yi|e'] eqn:Hy; step_result;
    [|intros [= <-]; by eapply py_getitem_only].
  destruct (py_iadd_item fs yi _) as [fs'|e'] eqn:Hfs; step_result;
    [|intros [= <-]; by eapply py_iadd_item_only].
  destruct (py_iadd_item fq yi _) as [fq'|e'] eqn:Hfq; step_result; [done|].
  intros [= <-]. eapply py_iadd_item_only; [|done].
  intros e3. destruct (_ ≫= _) as [x|e4]; step_result; [done|].
  intros [= <-]. by apply HX.
Qed.

Lemma py_getitem_nat_Ok {A : Type} (l : list A) (i : nat) (a : A) :
  py_getitem l (Z.of_nat i) = Ok a ↔ l !! i = Some a.
Proof.
  split; [|apply py_getitem_nat].
  unfold py_getitem, py_index. case_decide as Hi.
  - step_result. rewrite Nat2Z.id. destruct (l !! i); [by intros [= ->] | done].
  - case_decide; step_result; [lia | done].
Qed.

Lemma py_iadd_item_Ok (l : list R) (i : Z) (rhs : result R) (l' : list R) :
  py_iadd_item l i rhs = Ok l' →
  (- Z.of_nat (length l) ≤ i < Z.of_nat (length l))%Z ∧
  (∃ v, rhs = Ok v) ∧ length l' = length l.
Proof.
  unfold py_iadd_item, py_getitem, py_setitem.
  destruct (py_index _ _) as [k|e] eqn:Hk; step_result; [|done].
  apply py_index_Ok in Hk as [Hi _].
  destruct (l !! k); step_result; [|done].
  destruct rhs as [v|e]; step_result; [|done].
  intros [= <-]. split; [done|]. split; [by exists v | by rewrite length_insert].
Qed.

Lemma py_index_accepts (len : nat) (i : Z) :
  (- Z.of_nat len ≤ i < Z.of_nat len)%Z →
  ∃ k, py_index len i = Ok k ∧ k < len.
Proof.
  intros Hi. unfold py_index. repeat case_decide; try lia.
  all: eexists; split; [done | lia].
Qed.

Lemma py_iadd_item_accepts (l : list R) (i : Z) (v : R) :
  (- Z.of_nat (length l) ≤ i < Z.of_nat (length l))%Z →
  ∃ l', py_iadd_item l i (Ok v) = Ok l' ∧ length l' = length l.
Proof.
  intros Hi. unfold py_iadd_item, py_getitem, py_setitem.
  destruct (py_index_accepts _ _ Hi) as (k & -> & Hk). step_result.
  destruct (lookup_lt_is_Some_2 l k Hk) as [old ->]. step_result.
  eexists. split; [done|]. by rewrite length_insert.
Qed.

Section fit_domain.
Context (X : list (list R)) (y : list Z) (k : nat).

Lemma column_step_shape j acc i acc' :
  sums_shape k acc → column_step X y j acc i = Ok acc' → sums_shape k acc'.
Proof.
  destruct acc as [fs fq]. intros [Hfs Hfq]. unfold column_step. cbn in Hfs, Hfq.
  destruct (py_getitem y _) as [yi|e]; step_result; [|done].
  destruct (py_iadd_item fs yi _) as [fs'|e] eqn:Hfs'; step_result; [|done].
  destruct (py_iadd_item fq yi _) as [fq'|e] eqn:Hfq'; step_result; [|done].
  intros [= <-]. apply py_iadd_item_Ok in Hfs' as (_ & _ & ?).
  apply py_iadd_item_Ok in Hfq' as (_ & _ & ?). split; cbn; congruence.
Qed.

(** What one turn of the inner loop needs, and that it needs no more. *)
Lemma column_step_Ok j acc i :
  sums_shape k acc →
  (∃ acc', column_step X y j acc i = Ok acc') ↔
  ∃ row l, X !! i = Some row ∧ j < length row ∧
           y !! i = Some l ∧ (- Z.of_nat k ≤ l < Z.of_nat k)%Z.
Proof.
  destruct acc as [fs fq]. intros [Hfs Hfq]. cbn in Hfs, Hfq. unfold column_step.
  split.
  - intros [acc' Hstep].
    destruct (py_getitem y _) as [l|e] eqn:Hl; step_result; [|done].
    cbn [mbind result_bind] in Hstep.
    destruct (py_iadd_item fs l _) as [fs'|e] eqn:Hfs'; [|done].
    apply py_iadd_item_Ok in Hfs' as (Hrange & [x Hx] & _).
    destruct (py_getitem X _) as [row|e] eqn:Hrow; [|done].
    cbn [mbind result_bind] in Hx.
    apply py_getitem_nat_Ok in Hl, Hrow, Hx.
    exists row, l. rewrite Hfs in Hrange.
    split; [done|]. split; [by eapply lookup_lt_Some|]. by split.
  - intros (row & l & Hrow & Hj & Hl & Hrange).
    destruct (lookup_lt_is_Some_2 row j Hj) as [x Hx].
    rewrite (py_getitem_nat _ _ _ Hl), (py_getitem_nat _ _ _ Hrow). step_result.
    rewrite (py_getitem_nat _ _ _ Hx). step_result.
    destruct (py_iadd_item_accepts fs l x) as (fs' & -> & _); [lia|].
    destruct (py_iadd_item_accepts fq l (x ^ 2)%R) as (fq' & -> & _); [lia|].
    by eexists.
Qed.

Lemma feature_step_Ok n acc j :
  n ≠ 0 →
  (∃ acc', feature_step X y k n acc j = Ok acc') ↔
  ∃ sums, foldM (column_step X y j) (replicate k 0%R, replicate k 0%R) (seq 0 n)
          = Ok sums.
Proof.
  intros Hn. assert (INR n ≠ 0%R) as HINR by by apply not_0_INR.
  destruct acc as [a v]. unfold feature_step.
  destruct (foldM _ _ _) as [[fs fq]|e]; step_result.
  - split; [by eexists|]. intros _.
    rewrite (mapR_ok_fmap _ (λ x, x / INR n)%R) by (intros; by apply py_div_ok).
    step_result.
    rewrite (mapR_ok_fmap _ (λ q, q.1 / INR n - q.2 ^ 2)%R); [by eexists|].
    intros [x s] _. by rewrite py_div_ok.
  - split; by intros [? ?].
Qed.

Lemma feature_step_only n acc j e :
  n ≠ 0 → feature_step X y k n acc j = Raise e → e = IndexError.
Proof.
  intros Hn Hstep.
  destruct (foldM (column_step X y j) (replicate k 0%R, replicate k 0%R) (seq 0 n))
    as [sums|e'] eqn:Hloop.
  - destruct (proj2 (feature_step_Ok n acc j Hn)) as [acc' Hacc']; [by eexists|].
    congruence.
  - destruct acc as [a v]. unfold feature_step in Hstep. rewrite Hloop in Hstep.
    injection Hstep as <-. revert Hloop. apply foldM_only_raises.
    intros ? ? ? _. apply column_step_only.
Qed.

Lemma _get_avg_var_only e : _get_avg_var X y k = Raise e → e = IndexError.
Proof.
  unfold _get_avg_var.
  destruct (py_getitem X 0) as [X0|e'] eqn:HX0; step_result;
    [|intros [= <-]; by eapply py_getitem_only].
  apply foldM_only_raises. intros acc j e' _. apply feature_step_only.
  destruct X; [done | cbn; lia].
Qed.

Lemma _get_avg_var_Ok :
  (∃ tables, _get_avg_var X y k = Ok tables) ↔ trainable X y k.
Proof.
  unfold _get_avg_var, trainable. change 0%Z with (Z.of_nat 0). split.
  - intros [tables Hloop].
    destruct (py_getitem X _) as [X0|e] eqn:HX0; [|done].
    cbn [mbind result_bind] in Hloop. apply py_getitem_nat_Ok in HX0.
    exists X0. split; [done|].
    destruct (decide (length X0 = 0)) as [|Hm]; [by left | right].
    assert (length X ≠ 0) as Hn by (destruct X; [done | cbn; lia]).
    intros i row Hrow.
    destruct (foldM_Ok_each (λ _, True) _ _ (λ _ _ _ _ _, I) _ _ I Hloop)
      as [_ Hcols].
    destruct (Hcols (length X0 - 1)) as (acc0 & acc1 & _ & Hcol).
    { apply elem_of_seq. lia. }
    destruct (proj1 (feature_step_Ok (length X) acc0 (length X0 - 1) Hn))
      as [sums Hsums]; [by eexists|].
    assert (sums_shape k (replicate k 0%R, replicate k 0%R)) as Hshape
      by (split; apply length_replicate).
    destruct (foldM_Ok_each (sums_shape k) _ _
                (column_step_shape (length X0 - 1)) _ _ Hshape Hsums)
      as [_ Hrows].
    destruct (Hrows i) as (s0 & s1 & Hs0 & Hstep).
    { apply elem_of_seq. apply lookup_lt_Some in Hrow. lia. }
    destruct (proj1 (column_step_Ok (length X0 - 1) s0 i Hs0))
      as (row' & l & Hrow' & Hj & Hl & Hr); [by eexists|].
    assert (row' = row) as -> by congruence.
    split; [lia | by exists l].
  - intros (X0 & HX0 & Hrows). rewrite (py_getitem_nat _ _ _ HX0). step_result.
    assert (length X ≠ 0) as Hn by (destruct X; [done | cbn; lia]).
    destruct Hrows as [->|Hrows]; [by eexists|].
    destruct (foldM_accepts (λ _, True) (feature_step X y k (length X))
                (seq 0 (length X0))) with (acc := ([], []) : list (list R) * list (list R))
      as (tables & Htables & _); [|done|by exists tables].
    intros acc j [_ Hj]%elem_of_seq _.
    destruct (proj2 (feature_step_Ok (length X) acc j Hn)) as [acc' Hacc'];
      [|by exists acc'].
    destruct (foldM_accepts (sums_shape k) (column_step X y j) (seq 0 (length X)))
      with (acc := (replicate k 0%R, replicate k 0%R))
      as (sums & Hsums & _); [|split; apply length_replicate|by exists sums].
    intros s i [_ Hi]%elem_of_seq Hs.
    destruct (lookup_lt_is_Some_2 X i) as [row Hrow]; [lia|].
    destruct (Hrows i row Hrow) as (Hlen & l & Hl & Hr).
    destruct (proj2 (column_step_Ok j s i Hs)) as [s' Hs'].
    { exists row, l. split; [done|]. split; [lia|]. by split. }
    exists s'. split; [done|]. by eapply column_step_shape.
Qed.
End fit_domain.

(** X1. [fit] never raises [ZeroDivisionError], [ValueError] or
    [TypeError]: a matrix without rows fails at [X[0]] with [IndexError],
    before any division by the number of rows. *)
Theorem fit_never_divides_by_zero
    (self : GaussianNB) (X : list (list R)) (y : list Z) :
  (fit self X y).2 ≠ Raise ZeroDivisionError ∧
  (fit self X y).2 ≠ Raise ValueError ∧
  (fit self X y).2 ≠ Raise TypeError ∧
  (fit self [] y).2 = Raise IndexError.
Proof.
  assert (∀ e, (fit self X y).2 = Raise e → e = IndexError) as Honly.
  { intros e. unfold fit.
    destruct (_get_avg_var _ _ _) as [[a v]|e'] eqn:Hav; [done|].
    cbn. intros [= <-]. by eapply _get_avg_var_only. }
  split_and!; [by intros ?%Honly.. |].
  unfold fit. reflexivity.
Qed.

(** X2. [fit] returns only on the inputs that are [trainable] for the
    number of distinct labels: [X] has a first row and, unless that row is
    empty, every row has at least as many columns and comes with a label
    [l] such that [-n_class <= l < n_class]. *)
Theorem fit_returns_only_if_trainable
    (self : GaussianNB) (X : list (list R)) (y : list Z) :
  (fit self X y).2 = Ok () → trainable X y (size (_get_prior y)).
Proof.
  intros Hfit. apply _get_avg_var_Ok. unfold fit in Hfit.
  destruct (_get_avg_var _ _ _) as [tables|e]; [by eexists | done].
Qed.

Lemma fit_returns_only_if_trainable_witness :
  trainable X_two y_two (size (_get_prior y_two)).
Proof.
  apply (fit_returns_only_if_trainable __init__ X_two y_two).
  rewrite fit_two. reflexivity.
Defined.

(** X3. A call of [fit] that raises has already replaced [prior] and
    [n_class] by those of the new labels, and leaves [avgs] and [variances]
    as they were.  On a classifier that was never fitted, [predict_prob]
    and [predict] then still raise [TypeError] on every input with a
    row. *)
Theorem fit_failure_is_not_rolled_back
    (self : GaussianNB) (X : list (list R)) (y : list Z) (e : exn) :
  (fit self X y).2 = Raise e →
  (fit self X y).1
  = {| prior := Some (_get_prior y); avgs := avgs self;
       variances := variances self; n_class := Some (size (_get_prior y)) |}
  ∧ ∀ row Xp threshold,
      predict_prob (fit __init__ X y).1 (row :: Xp) = Raise TypeError ∧
      predict (fit __init__ X y).1 (row :: Xp) threshold = Raise TypeError.
Proof.
  unfold fit. destruct (_get_avg_var _ _ _) as [[a v]|e']; [done|].
  intros _. split; [done|]. intros row Xp threshold. by split.
Qed.

Lemma fit_failure_is_not_rolled_back_witness :
  (fit model_two [] [5]%Z).1
  = {| prior := Some (_get_prior [5]%Z); avgs := avgs model_two;
       variances := variances model_two;
       n_class := Some (size (_get_prior [5]%Z)) |}
  ∧ ∀ row Xp threshold,
      predict_prob (fit __init__ [] [5]%Z).1 (row :: Xp) = Raise TypeError ∧
      predict (fit __init__ [] [5]%Z).1 (row :: Xp) threshold = Raise TypeError.
Proof.
  apply (fit_failure_is_not_rolled_back model_two [] [5]%Z IndexError).
  reflexivity.
Defined.

(** ** What [fit] reads of its input *)

Lemma py_getitem_lookup {A : Type} (l : list A) (i : nat) :
  py_getitem l (Z.of_nat i)
  = match l !! i with Some a => Ok a | None => Raise IndexError end.
Proof.
  destruct (l !! i) as [a|] eqn:Hi; [by apply py_getitem_nat|].
  apply lookup_ge_None in Hi. unfold py_getitem, py_index.
  rewrite decide_False, decide_False by lia. done.
Qed.

Lemma py_index_wrap (k : nat) (l : Z) :
  py_index k (wrap_label k l) = py_index k l.
Proof.
  unfold wrap_label, py_index. repeat case_decide; try lia; done.
Qed.

Lemma py_iadd_item_wrap (k : nat) (fs : list R) (l : Z) (rhs : result R) :
  length fs = k →
  py_iadd_item fs (wrap_label k l) rhs = py_iadd_item fs l rhs.
Proof.
  intros <-. unfold py_iadd_item, py_getitem, py_setitem.
  by rewrite py_index_wrap.
Qed.

Section fit_reads.
Context (X X' : list (list R)) (y y' : list Z) (k m : nat).
Hypothesis Hrows : length X' = length X.
Hypothesis Hcell : ∀ i j, i < length X → j < m →
  (Xi ← py_getitem X (Z.of_nat i); py_getitem Xi (Z.of_nat j))
  = (Xi ← py_getitem X' (Z.of_nat i); py_getitem Xi (Z.of_nat j)).
Hypothesis Hlabel : ∀ i fs rhs, i < length X → length fs = k →
  (yi ← py_getitem y (Z.of_nat i); py_iadd_item fs yi rhs)
  = (yi ← py_getitem y' (Z.of_nat i); py_iadd_item fs yi rhs).

Lemma column_step_agree j acc i :
  i < length X → j < m → sums_shape k acc →
  column_step X y j acc i = column_step X' y' j acc i.
Proof.
  destruct acc as [fs fq]. intros Hi Hj [Hfs Hfq]. cbn in Hfs, Hfq.
  unfold column_step. rewrite <- (Hcell i j Hi Hj).
  set (Xij := Xi ← py_getitem X (Z.of_nat i); py_getitem Xi (Z.of_nat j)).
  pose proof (Hlabel i fs Xij Hi Hfs) as H1.
  pose proof (Hlabel i fq ((λ x : R, (x ^ 2)%R) <$> Xij) Hi Hfq) as H2.
  destruct (py_getitem y (Z.of_nat i)) as [l|e],
           (py_getitem y' (Z.of_nat i)) as [l'|e'];
    cbn [mbind result_bind] in H1, H2 |- *.
  - by rewrite H1, H2.
  - by rewrite H1.
  - by rewrite <- H1.
  - by injection H1 as ->.
Qed.

Lemma feature_step_agree acc j :
  j < m →
  feature_step X y k (length X) acc j = feature_step X' y' k (length X) acc j.
Proof.
  intros Hj. destruct acc as [a v]. unfold feature_step.
  rewrite (foldM_agree (sums_shape k) (column_step X y j) (column_step X' y' j));
    [done | apply column_step_shape | | split; apply length_replicate].
  intros acc i [_ Hi]%elem_of_seq Hacc. apply column_step_agree; [lia | done..].
Qed.

Lemma feature_loop_agree :
  foldM (feature_step X y k (length X)) ([], []) (seq 0 m)
  = foldM (feature_step X' y' k (length X')) ([], []) (seq 0 m).
Proof.
  rewrite Hrows. apply (foldM_agree (λ _, True)); [done | | done].
  intros acc j [_ Hj]%elem_of_seq _. apply feature_step_agree. lia.
Qed.
End fit_reads.

(** [_get_avg_var] reads only the first [len(X[0])] columns of each row and
    the first [len(X)] labels, and reads a label only as an index. *)
Lemma _get_avg_var_normal (X : list (list R)) (y : list Z) (k : nat) :
  _get_avg_var X y k
  = _get_avg_var (take (first_row_length X) <$> X)
                 (wrap_label k <$> take (length X) y) k.
Proof.
  unfold _get_avg_var, first_row_length. change 0%Z with (Z.of_nat 0).
  rewrite !py_getitem_lookup, list_lookup_fmap, head_lookup.
  destruct (X !! 0) as [X0|] eqn:HX0; cbn [default fmap option_fmap option_map];
    [|done].
  step_result. rewrite firstn_all.
  apply (feature_loop_agree X _ y _ k (length X0)).
  - by rewrite length_fmap.
  - intros i j Hi Hj. rewrite !py_getitem_lookup, list_lookup_fmap.
    destruct (X !! i) as [row|]; [|done].
    cbn [fmap option_fmap option_map]. step_result.
    by rewrite !py_getitem_lookup, lookup_take_lt.
  - intros i fs rhs Hi Hfs. rewrite !py_getitem_lookup.
    rewrite list_lookup_fmap, lookup_take_lt by done.
    destruct (y !! i) as [l|]; [|done]. cbn [fmap option_fmap option_map].
    step_result. by rewrite py_iadd_item_wrap.
Qed.

Lemma wrap_label_idemp (k : nat) (l : Z) :
  wrap_label k (wrap_label k l) = wrap_label k l.
Proof. unfold wrap_label. repeat case_decide; lia. Qed.

Lemma first_row_length_take (X : list (list R)) :
  first_row_length (take (first_row_length X) <$> X) = first_row_length X.
Proof.
  unfold first_row_length. destruct X as [|X0 Xr]; [done|].
  cbn [head default fmap list_fmap]. by rewrite firstn_all.
Qed.

Lemma normal_rows_idemp (X : list (list R)) (m : nat) :
  take m <$> (take m <$> X) = take m <$> X.
Proof.
  rewrite <- list_fmap_compose. apply list_fmap_ext. intros _ row _. cbn.
  apply take_idemp.
Qed.

Lemma normal_labels_idemp (y : list Z) (k n : nat) :
  wrap_label k <$> take n (wrap_label k <$> take n y)
  = wrap_label k <$> take n y.
Proof.
  rewrite <- fmap_take, take_idemp, <- list_fmap_compose.
  apply list_fmap_ext. intros _ l _. cbn. apply wrap_label_idemp.
Qed.






Lemma y_back_classes : size (_get_prior y_back) = 2.
Proof. unfold _get_prior. by rewrite Counter_size. Qed.



(** The row labelled [-1] is counted for class [1], the row labelled [0]
    for class [0]. *)
Example fit_back :
  avgs (fit __init__ X_two y_back).1 = Some [[3 / 2; 1 / 2]]%R.
Proof.
  unfold fit. rewrite _get_avg_var_normal, y_back_classes.
  change (take (first_row_length X_two) <$> X_two) with X_two.
  change (wrap_label 2 <$> take (length X_two) y_back) with [1; 0]%Z.
  assert (dataset X_two [1; 0]%Z 1 2) as Hdata.
  { unfold dataset, X_two. split_and!; [done | by repeat constructor | done |].
    repeat constructor; lia. }
  rewrite (_get_avg_var_ok _ _ 1 2 Hdata). cbn [fst avgs]. unfold moment_table.
  cbn [seq fmap list_fmap]. repeat f_equal; unfold X_two; eval_moment.
Qed.

(** X5. [fit] reads only as many columns of each row as the first row has:
    cutting every row to that length changes neither the object that [fit]
    leaves nor the way the call ends. *)
Theorem fit_ignores_surplus_columns
    (self : GaussianNB) (X : list (list R)) (y : list Z) :
  fit self X y = fit self (take (first_row_length X) <$> X) y.
Proof.
  unfold fit. set (k := size (_get_prior y)).
  rewrite (_get_avg_var_normal X y k).
  rewrite (_get_avg_var_normal (take (first_row_length X) <$> X) y k).
  by rewrite first_row_length_take, normal_rows_idemp, length_fmap.
Qed.

(** X6. The moments read the labels only as indices and only one per row:
    labels after the last row are not read, and a label [l] with
    [-n_class <= l < 0] gives, in success and in failure, what the label
    [n_class + l] gives. *)
Theorem moments_read_labels_as_indices
    (X : list (list R)) (y : list Z) (k : nat) :
  _get_avg_var X y k = _get_avg_var X (wrap_label k <$> take (length X) y) k.
Proof.
  rewrite (_get_avg_var_normal X y k).
  rewrite (_get_avg_var_normal X (wrap_label k <$> take (length X) y) k).
  by rewrite normal_labels_idemp.
Qed.

(** ** The density evaluator on every variance *)

(** X7. The density evaluator raises [ValueError] exactly on a negative
    variance and [ZeroDivisionError] exactly on the variance [0], whatever
    the value and the mean. *)
Theorem density_errors_by_sign_of_variance (x avg var : R) :
  (_get_posterior x avg var = Raise ValueError ↔ (var < 0)%R) ∧
  (_get_posterior x avg var = Raise ZeroDivisionError ↔ var = 0%R).
Proof.
  destruct (Rlt_dec var 0) as [Hneg|Hnn].
  { rewrite _get_posterior_neg by done. split; split; try done; lra. }
  destruct (Req_dec_T var 0) as [->|Hnz].
  { rewrite _get_posterior_zero. split; split; try done; lra. }
  rewrite _get_posterior_pos by lra. split; split; try done; lra.
Qed.

(** ** The rows of [predict_prob] *)

(** X9. On a model of [k] classes whose stored tables have one entry per
    class in every column, whenever [predict_prob] returns it returns one
    row per input row, and each of them has [k] entries, whatever the
    number of columns of the input row. *)
Theorem predict_prob_rows_shape
    (self : GaussianNB) (X A V PP : list (list R)) (k : nat) :
  n_class self = Some k → avgs self = Some A → variances self = Some V →
  Forall (λ a, length a = k) A → Forall (λ v, length v = k) V →
  predict_prob self X = Ok PP →
  length PP = length X ∧ Forall (λ P, length P = k) PP.
Proof.
  intros Hk HA HV HAk HVk HPP. unfold predict_prob in HPP.
  split; [by eapply mapR_length|].
  apply mapR_Forall2 in HPP. apply Forall_lookup. intros i P HP.
  destruct (Forall2_lookup_r _ _ _ _ _ HPP HP) as (row & _ & Hrow).
  by apply (_predict_prob_length self row A V k P).
Qed.

Lemma predict_prob_rows_shape_witness :
  ∃ PP, predict_prob model_two [[1; 7]; []]%R = Ok PP ∧
    length PP = length [[1; 7]; []]%R ∧ Forall (λ P, length P = 2) PP.
Proof.
  destruct (mapR_exists (_predict_prob model_two) (λ _ P, length P = 2)
              [[1; 7]; []]%R) as (PP & HPP & _).
  { apply Forall_forall. intros row _. apply model_two_row. }
  exists PP. split; [exact HPP|].
  apply (predict_prob_rows_shape model_two [[1; 7]; []]%R
           [[1 / 2; 3 / 2]]%R [[1 / 4; 9 / 4]]%R PP 2);
    [reflexivity | reflexivity | reflexivity
    | by repeat constructor | by repeat constructor | exact HPP].
Defined.

(** ** What [_predict_prob] raises, on any object *)

(** X11. [_predict_prob] raises [TypeError] exactly when [n_class], [avgs]
    or [variances] is still unset, and it never raises [IndexError]: however
    the lengths of the row and of the stored lists differ, no index is ever
    out of range. *)
Theorem predict_prob_row_errors (self : GaussianNB) (row : list R) :
  (_predict_prob self row = Raise TypeError ↔
   n_class self = None ∨ avgs self = None ∨ variances self = None)
  ∧ _predict_prob self row ≠ Raise IndexError.
Proof.
  split; [split|].
  - intros Hrow. apply _predict_prob_raises in Hrow as [[_ H]|[[H|H] _]]; done.
  - unfold _predict_prob. intros [->|[->| ->]]; [done| |].
    + by destruct (n_class self).
    + by destruct (n_class self), (avgs self).
  - intros Hrow. apply _predict_prob_raises in Hrow as [[H _]|[[H|H] _]]; done.
Qed.

(** ** [predict] on any object *)

Lemma joint_step_length_le probs item P :
  joint_step probs item = Ok P → length P ≤ length probs.
Proof.
  destruct item as [[x a] v]. unfold joint_step. intros ->%mapR_length.
  unfold zip3. rewrite !length_zip_with. lia.
Qed.

Lemma _predict_prob_length_le self row P :
  _predict_prob self row = Ok P → ∃ k, n_class self = Some k ∧ length P ≤ k.
Proof.
  unfold _predict_prob. destruct (n_class self) as [k|]; [|done].
  destruct (avgs self) as [A|]; [|done]. destruct (variances self) as [V|]; [|done].
  step_result. destruct (foldM joint_step _ _) as [P0|e] eqn:Hloop; step_result; [|done].
  intros HP%mapR_length. exists k. split; [done|]. rewrite HP.
  destruct (foldM_Ok_each (λ probs, length probs ≤ k) joint_step (zip3 row A V))
    with (acc := replicate k 1%R) (r := P0) as [Hle _]; [| |done..].
  - intros acc item acc' Hacc Hstep%joint_step_length_le. lia.
  - by rewrite length_replicate.
Qed.

Lemma argmax_index (p : list R) (i : nat) :
  fst <$> py_max snd (enumerate p) = Ok i ↔ p ≠ [] ∧ is_first_max p i.
Proof.
  split.
  - destruct p as [|x p]; [done|]. intros Hi. split; [done|].
    destruct (argmax_first (x :: p)) as (i' & Hi' & Hfirst); [done|].
    rewrite Hi in Hi'. by injection Hi' as <-.
  - intros [Hp Hfirst]. destruct (argmax_first p Hp) as (i' & -> & Hfirst').
    f_equal. by apply (is_first_max_unique p).
Qed.

(** X12. Whatever the state of the object, when [predict] returns it
    returns one label per row, and every label is below the stored
    [n_class]. *)
Theorem predict_labels_in_range
    (self : GaussianNB) (X : list (list R)) (threshold : R) (L : list nat) :
  predict self X threshold = Ok L →
  length L = length X ∧
  Forall (λ label, ∃ k, n_class self = Some k ∧ label < k) L.
Proof.
  unfold predict, predict_prob.
  destruct (mapR (_predict_prob self) X) as [PP|e] eqn:HPP; step_result; [|done].
  intros HL. apply mapR_Forall2 in HPP, HL.
  split; [rewrite (Forall2_length _ _ _ HPP); symmetry; by eapply Forall2_length|].
  apply Forall_lookup. intros i label Hlabel.
  destruct (Forall2_lookup_r _ _ _ _ _ HL Hlabel) as (P & HP & Harg).
  destruct (Forall2_lookup_r _ _ _ _ _ HPP HP) as (row & _ & Hrow).
  apply _predict_prob_length_le in Hrow as (k & Hk & Hle).
  apply argmax_index in Harg as [_ (v & Hv & _)]. apply lookup_lt_Some in Hv.
  exists k. split; [done | lia].
Qed.

Lemma model_two_predict (X : list (list R)) (threshold : R) :
  ∃ L, predict model_two X threshold = Ok L.
Proof.
  destruct (mapR_exists (_predict_prob model_two) (λ _ P, length P = 2) X)
    as (PP & HPP & Hlen).
  { apply Forall_forall. intros row _. apply model_two_row. }
  destruct (mapR_exists (λ y, fst <$> py_max snd (enumerate y)) is_first_max PP)
    as (L & HL & _).
  { clear HPP. induction Hlen as [|row P X' PP' HP _ IH]; constructor; [|done].
    apply argmax_first. by destruct P. }
  exists L. unfold predict.
  change (predict_prob model_two X) with (mapR (_predict_prob model_two) X).
  by rewrite HPP.
Qed.

Lemma predict_labels_in_range_witness :
  ∃ L, predict model_two [[1]; [3; 4]]%R (1 / 2) = Ok L ∧
    length L = length [[1]; [3; 4]]%R ∧
    Forall (λ label, ∃ k, n_class model_two = Some k ∧ label < k) L.
Proof.
  destruct (model_two_predict [[1]; [3; 4]]%R (1 / 2)) as [L HL].
  exists L. split; [exact HL|].
  exact (predict_labels_in_range model_two [[1]; [3; 4]]%R (1 / 2) L HL).
Defined.

(** X13. [predict] raises what [predict_prob] raises, and otherwise raises
    only [ValueError], exactly when one of the rows of probabilities is
    empty: [max] has nothing to choose from. *)
Theorem predict_errors
    (self : GaussianNB) (X : list (list R)) (threshold : R) (e : exn) :
  predict self X threshold = Raise e ↔
  predict_prob self X = Raise e ∨
  (e = ValueError ∧ ∃ PP, predict_prob self X = Ok PP ∧ [] ∈ PP).
Proof.
  unfold predict. destruct (predict_prob self X) as [PP|e']; step_result.
  - split.
    + intros (P & HP & Harg)%mapR_Raise_inv. right.
      destruct P as [|p P]; last first.
      { destruct (argmax_first (p :: P)) as (? & Hp & _); [done|]. congruence. }
      cbn in Harg. injection Harg as <-. split; [done|]. by exists PP.
    + intros [|[-> (PP' & [= <-] & Hin)]]; [done|].
      destruct (mapR _ PP) as [L|e''] eqn:HL.
      * apply mapR_Forall2 in HL. apply list_elem_of_lookup in Hin as [i Hi].
        destruct (Forall2_lookup_l _ _ _ _ _ HL Hi) as (? & _ & ?). done.
      * apply mapR_Raise_inv in HL as (P & _ & HP).
        destruct P as [|p P]; [cbn in HP; by injection HP as <-|].
        destruct (argmax_first (p :: P)) as (? & Hp & _); [done|]. congruence.
  - split; [intros [= ->]; by left|]. by intros [[= ->]|[_ (? & ? & _)]].
Qed.

(** X14. Rows are answered one by one: on two inputs put end to end,
    [predict_prob] returns the answers to the first followed by the answers
    to the second, or raises what the first call raises or else what the
    second one raises; and [predict] returns exactly when it returns on
    both, the labels of the first followed by the labels of the second. *)
Theorem predict_on_concatenation
    (self : GaussianNB) (X1 X2 : list (list R)) (threshold : R) :
  predict_prob self (X1 ++ X2)
  = (PP1 ← predict_prob self X1; PP2 ← predict_prob self X2; Ok (PP1 ++ PP2))
  ∧ ∀ L, predict self (X1 ++ X2) threshold = Ok L ↔
      ∃ L1 L2, predict self X1 threshold = Ok L1 ∧
               predict self X2 threshold = Ok L2 ∧ L = L1 ++ L2.
Proof.
  split; [apply mapR_app|]. intros L. unfold predict, predict_prob.
  rewrite mapR_app.
  destruct (mapR (_predict_prob self) X1) as [PP1|e1]; step_result;
    [|split; [done | by intros (? & ? & ? & _)]].
  destruct (mapR (_predict_prob self) X2) as [PP2|e2]; step_result;
    [|split; [done | by intros (? & ? & _ & ? & _)]].
  rewrite mapR_app.
  destruct (mapR _ PP1) as [L1|e1]; step_result;
    [|split; [done | by intros (? & ? & ? & _)]].
  destruct (mapR _ PP2) as [L2|e2]; step_result;
    [|split; [done | by intros (? & ? & _ & ? & _)]].
  split; [intros [= <-]; by exists L1, L2|].
  by intros (? & ? & [= <-] & [= <-] & ->).
Qed.

(** ** Rows and models without features *)

Lemma mapR_const {A B : Type} (f : A → result B) (b : B) (l : list A) :
  (∀ x, x ∈ l → f x = Ok b) → mapR f l = Ok (replicate (length l) b).
Proof.
  induction l as [|x l IH]; intros Hf; [done|]. cbn [mapR length replicate].
  rewrite Hf by left. step_result. rewrite IH; [done|].
  intros z Hz. apply Hf. by right.
Qed.

Lemma py_sum_ones (k : nat) : py_sum (replicate k 1%R) = INR k.
Proof.
  rewrite py_sum_big_sum, length_replicate.
  rewrite (big_sum_ext k _ (λ _, 1%R)).
  - rewrite big_sum_const. lra.
  - intros c Hc. by rewrite lookup_total_replicate_2.
Qed.

Lemma _predict_prob_no_features self row A V k :
  n_class self = Some k → avgs self = Some A → variances self = Some V →
  0 < k → zip3 row A V = [] →
  _predict_prob self row = Ok (replicate k (1 / INR k)%R).
Proof.
  intros Hk HA HV Hpos Hzip. unfold _predict_prob.
  rewrite Hk, HA, HV. step_result. rewrite Hzip. cbn [foldM]. step_result.
  rewrite py_sum_ones.
  rewrite (mapR_ok_fmap _ (λ p, p / INR k)%R).
  - by rewrite fmap_replicate.
  - intros p _. apply py_div_ok, not_0_INR. lia.
Qed.

Lemma argmax_uniform (k : nat) (v : R) :
  0 < k → fst <$> py_max snd (enumerate (replicate k v)) = Ok 0.
Proof.
  intros Hk. apply argmax_index. split; [destruct k; [lia | done]|].
  exists v. split_and!.
  - by apply lookup_replicate_2.
  - intros j w [-> _]%lookup_replicate. lra.
  - intros j w Hj. lia.
Qed.

(** X15. Where no density is evaluated, because the model has no column or
    the rows have none, a model with [n_class >= 1] answers every row with
    the uniform distribution [1/n_class] and the label [0]; the stored
    variances are not read, so this holds also when some of them are
    [0]. *)
Theorem no_features_give_uniform
    (self : GaussianNB) (X A V : list (list R)) (k : nat) (threshold : R) :
  n_class self = Some k → avgs self = Some A → variances self = Some V →
  0 < k → A = [] ∨ V = [] ∨ Forall (λ row, row = []) X →
  predict_prob self X = Ok (replicate (length X) (replicate k (1 / INR k)%R)) ∧
  predict self X threshold = Ok (replicate (length X) 0).
Proof.
  intros Hk HA HV Hpos Hnone.
  assert (predict_prob self X
          = Ok (replicate (length X) (replicate k (1 / INR k)%R))) as HPP.
  { unfold predict_prob. apply mapR_const.
    intros row Hrow. apply (_predict_prob_no_features self row A V k); try done.
    unfold zip3. destruct Hnone as [->|[->|Hrows]].
    - by rewrite zip_with_nil_r.
    - by rewrite zip_with_nil_r.
    - by rewrite (proj1 (Forall_forall _ _) Hrows row Hrow). }
  split; [done|]. unfold predict. rewrite HPP. step_result.
  rewrite <- (length_replicate (length X) (replicate k (1 / INR k)%R)) at 2.
  apply mapR_const.
  intros P [-> _]%elem_of_replicate. by apply argmax_uniform.
Qed.

Lemma no_features_give_uniform_witness :
  predict_prob model_zero [[]; []]
  = Ok (replicate 2 (replicate 2 (1 / INR 2)%R)) ∧
  predict model_zero [[]; []] (1 / 2) = Ok (replicate 2 0).
Proof.
  apply (no_features_give_uniform model_zero [[]; []]
           [[0; 1 / 2]]%R [[0; 1 / 4]]%R 2 (1 / 2));
    [reflexivity | reflexivity | reflexivity | lia |].
  right. right. repeat constructor.
Defined.

(** ** When a stored variance is zero *)

Section zero_variance.
Local Open Scope R_scope.

Lemma big_sum_sqr_dev n f t :
  big_sum n (λ i, (f i - t) ^ 2)
  = big_sum n (λ i, f i ^ 2) - 2 * t * big_sum n f + INR n * t ^ 2.
Proof.
  induction n as [|n IH]; [cbn; lra|]. rewrite S_INR. cbn [big_sum].
  rewrite IH. ring.
Qed.

Lemma big_sum_nonneg n g : (∀ i, (i < n)%nat → 0 <= g i) → 0 <= big_sum n g.
Proof.
  induction n as [|n IH]; intros Hg; cbn; [lra|].
  pose proof (Hg n ltac:(lia)).
  assert (0 <= big_sum n g) by (apply IH; intros; apply Hg; lia). lra.
Qed.

Lemma big_sum_nonneg_zero n g :
  (∀ i, (i < n)%nat → 0 <= g i) → big_sum n g = 0 →
  ∀ i, (i < n)%nat → g i = 0.
Proof.
  induction n as [|n IH]; intros Hg Hsum i Hi; [lia|]. cbn [big_sum] in Hsum.
  pose proof (Hg n ltac:(lia)).
  assert (0 <= big_sum n g) by (apply big_sum_nonneg; intros; apply Hg; lia).
  destruct (decide (i = n)) as [->|Hne]; [lra|].
  apply IH; [intros; apply Hg; lia | lra | lia].
Qed.

(** The mean of the squares equals the square of the mean only for a
    constant sequence. *)
Lemma mean_sqr_eq_sqr_mean n f :
  (0 < n)%nat →
  big_sum n (λ i, f i ^ 2) / INR n - (big_sum n f / INR n) ^ 2 = 0 ↔
  ∃ t, ∀ i, (i < n)%nat → f i = t.
Proof.
  intros Hn. assert (0 < INR n) as HN by (apply lt_0_INR; lia).
  set (S := big_sum n f). set (Q := big_sum n (λ i, f i ^ 2)).
  pose proof (big_sum_sqr_dev n f (S / INR n)) as Hdev. fold S Q in Hdev.
  assert (Q - 2 * (S / INR n) * S + INR n * (S / INR n) ^ 2
          = INR n * (Q / INR n - (S / INR n) ^ 2)) as Hscale by (field; lra).
  rewrite Hscale in Hdev. split.
  - intros Hzero. exists (S / INR n). intros i Hi.
    rewrite Hzero, Rmult_0_r in Hdev.
    pose proof (big_sum_nonneg_zero n (λ i, (f i - S / INR n) ^ 2)
                  (λ i _, pow2_ge_0 _) Hdev i Hi) as Hi0.
    cbn beta in Hi0. nra.
  - intros [t Ht].
    assert (S = INR n * t) as HS.
    { unfold S. rewrite (big_sum_ext n f (λ _, t)) by done. apply big_sum_const. }
    assert (big_sum n (λ i, (f i - S / INR n) ^ 2) = 0) as Hz.
    { rewrite (big_sum_ext n _ (λ _, 0)).
      - rewrite big_sum_const. lra.
      - intros i Hi. rewrite (Ht i Hi), HS. field. lra. }
    rewrite Hz in Hdev. nra.
Qed.

Context (X : list (list R)) (y : list Z) (m k : nat).
Hypothesis Hdata : dataset X y m k.

(** The value of column [j] on row [i] if the row is of class [c], and [0]
    otherwise: the sums of [_get_avg_var] for class [c] are the sums of
    these values over all rows. *)
Lemma scaled_var_masked j c :
  scaled_var X y j c
  = big_sum (length X)
      (λ i, (if decide (y !!! i = Z.of_nat c) then (X !!! i) !!! j else 0) ^ 2)
    / INR (length X)
    - (big_sum (length X)
         (λ i, if decide (y !!! i = Z.of_nat c) then (X !!! i) !!! j else 0)
       / INR (length X)) ^ 2.
Proof.
  unfold scaled_var, scaled_avg, class_sqr_sum, class_sum, label_sum.
  do 2 f_equal. apply big_sum_ext. intros i _. case_decide; [done | lra].
Qed.

Lemma scaled_var_zero j c :
  scaled_var X y j c = 0 ↔
  zero_in_class X y j c ∨ (only_class X y c ∧ constant_column X j).
Proof.
  rewrite scaled_var_masked.
  rewrite mean_sqr_eq_sqr_mean by apply (dataset_rows_pos X y m k Hdata).
  split.
  - intros [t Ht].
    destruct (decide (Forall (λ i, y !!! i = Z.of_nat c) (seq 0 (length X))))
      as [Hall|Hnot].
    + right. split.
      * intros i Hi. apply (proj1 (Forall_forall _ _) Hall), elem_of_seq. lia.
      * exists t. intros i Hi. specialize (Ht i Hi).
        rewrite decide_True in Ht; [done|].
        apply (proj1 (Forall_forall _ _) Hall), elem_of_seq. lia.
    + left. apply not_Forall_Exists in Hnot; [|apply _].
      apply Exists_exists in Hnot as (i0 & [_ Hi0]%elem_of_seq & Hne).
      pose proof (Ht i0 ltac:(lia)) as Ht0. rewrite decide_False in Ht0 by done.
      intros i Hi Hc. specialize (Ht i Hi). rewrite decide_True in Ht by done.
      congruence.
  - intros [Hzero|[Honly [x Hx]]].
    + exists 0. intros i Hi. case_decide; [by apply Hzero | done].
    + exists x. intros i Hi. rewrite decide_True by by apply Honly. by apply Hx.
Qed.
End zero_variance.

(** X16. In exact arithmetic, as in C10: on a dataset, the variance that
    [fit] stores for column [j] and class [c] is [0] in two cases only: the
    column is [0] on every row of the class, or the class is the only one
    and the column is constant. *)
Theorem stored_variance_zero_iff
    (self : GaussianNB) (X : list (list R)) (y : list Z) (m j c : nat) :
  dataset X y m (size (_get_prior y)) → j < m → c < size (_get_prior y) →
  ((V ← variances (fit self X y).1; entry V j c) = Some 0%R ↔
   zero_in_class X y j c ∨ (only_class X y c ∧ constant_column X j)).
Proof.
  intros Hdata Hj Hc. rewrite (fit_ok self X y m Hdata). cbn [fst variances].
  cbn [mbind option_bind]. rewrite moment_table_entry by done.
  rewrite <- (scaled_var_zero X y m _ Hdata). split; [by intros [= ->] | by intros ->].
Qed.

Lemma stored_variance_zero_iff_witness :
  (V ← variances (fit __init__ X_zero y_two).1; entry V 0 0) = Some 0%R ↔
  zero_in_class X_zero y_two 0 0 ∨
  (only_class X_zero y_two 0 ∧ constant_column X_zero 0).
Proof.
  apply (stored_variance_zero_iff __init__ X_zero y_two 1 0 0);
    [exact dataset_zero | lia | rewrite y_two_classes; lia].
Defined.

(** ** The prior as a table of counts *)

Section counts.
Implicit Types (y : list Z) (cnt : gmap Z nat).

Lemma prior_total_insert cnt l c :
  cnt !! l = None → prior_total (<[l := c]> cnt) = c + prior_total cnt.
Proof.
  intros Hl. unfold prior_total. rewrite map_fold_insert_L; [done | | done].
  intros. lia.
Qed.

Lemma prior_total_bump cnt l : prior_total (bump cnt l) = S (prior_total cnt).
Proof.
  unfold bump. destruct (cnt !! l) as [c|] eqn:Hl; cbn.
  - assert (prior_total cnt = c + prior_total (delete l cnt)) as ->.
    { rewrite <- (insert_delete_id cnt l c Hl) at 1.
      apply prior_total_insert, lookup_delete_eq. }
    rewrite <- insert_delete_eq, prior_total_insert by apply lookup_delete_eq.
    lia.
  - by rewrite prior_total_insert.
Qed.

Lemma prior_total_fold y : ∀ cnt,
  prior_total (foldl bump cnt y) = prior_total cnt + length y.
Proof.
  induction y as [|l y IH]; intros cnt; cbn [foldl length]; [lia|].
  rewrite IH, prior_total_bump. lia.
Qed.

Lemma occurrences_elem l y : l ∈ y → 0 < occurrences l y.
Proof.
  induction y as [|l' y IH]; [by intros ?%elem_of_nil|].
  rewrite occurrences_cons. intros [->|Hin]%elem_of_cons.
  - rewrite decide_True by done. lia.
  - specialize (IH Hin). lia.
Qed.

Lemma remove_dups_length_le y : length (remove_dups y) ≤ length y.
Proof.
  induction y as [|l y IH]; [done|]. cbn. case_decide; cbn; lia.
Qed.
End counts.

(** X18. The prior is a table of counts: every count is at least [1], the
    counts add up to the number of labels, and so [n_class] is at most the
    number of labels and is [0] only for an empty label list. *)
Theorem prior_counts_add_up (y : list Z) :
  prior_total (_get_prior y) = length y ∧
  (∀ l c, _get_prior y !! l = Some c → 0 < c ∧ l ∈ y) ∧
  size (_get_prior y) ≤ length y ∧
  (size (_get_prior y) = 0 ↔ y = []).
Proof.
  unfold _get_prior. split_and!.
  - unfold Counter. rewrite prior_total_fold. unfold prior_total.
    by rewrite map_fold_empty.
  - intros l c. rewrite Counter_lookup. case_decide as Hin; [|done].
    intros [= <-]. split; [by apply occurrences_elem | done].
  - rewrite Counter_size. apply remove_dups_length_le.
  - rewrite Counter_size. split; [|by intros ->].
    destruct y as [|l y]; [done|]. intros Hnil%nil_length_inv.
    assert (l ∈ remove_dups (l :: y)) as Hin by (apply elem_of_remove_dups; by left).
    rewrite Hnil in Hin. by apply elem_of_nil in Hin.
Qed.

(** X19. On a dataset the classes are exactly the labels that occur: the
    prior has a key for each class index below [n_class] and for nothing
    else, so every class has at least one row. *)
Theorem dataset_classes_all_occur
    (X : list (list R)) (y : list Z) (m : nat) (l : Z) :
  dataset X y m (size (_get_prior y)) →
  (is_Some (_get_prior y !! l) ↔ (0 ≤ l < Z.of_nat (size (_get_prior y)))%Z).
Proof.
  intros (_ & _ & _ & Hrange). unfold _get_prior in *.
  set (k := size (Counter y)) in *.
  assert (is_Some (Counter y !! l) ↔ l ∈ remove_dups y) as ->.
  { rewrite Counter_lookup, elem_of_remove_dups.
    case_decide; split; try done. }
  assert (remove_dups y ≡ₚ seqZ 0 (Z.of_nat k)) as Hperm.
  { apply submseteq_length_Permutation.
    - apply NoDup_submseteq; [apply NoDup_remove_dups|].
      intros z Hz. rewrite elem_of_remove_dups in Hz. apply elem_of_seqZ.
      pose proof (proj1 (Forall_forall _ _) Hrange z Hz) as Hr. cbn beta in Hr. lia.
    - rewrite length_seqZ. unfold k. rewrite Counter_size. lia. }
  rewrite Hperm, elem_of_seqZ. lia.
Qed.

Lemma dataset_classes_all_occur_witness :
  is_Some (_get_prior y_const !! 1%Z) ↔
  (0 ≤ 1 < Z.of_nat (size (_get_prior y_const)))%Z.
Proof.
  exact (dataset_classes_all_occur X_const y_const 1 1%Z dataset_const).
Defined.

(** ** The order of the training rows *)

Section row_order.
Local Open Scope R_scope.
Implicit Types (rows : list (list R * Z)).

Lemma big_sum_peel_first n f :
  big_sum (S n) f = f 0%nat + big_sum n (λ i, f (S i)).
Proof.
  induction n as [|n IH]; [cbn; lra|].
  change (big_sum (S (S n)) f) with (big_sum (S n) f + f (S n)).
  rewrite IH. cbn [big_sum]. lra.
Qed.

Lemma label_sum_rows g j c rows :
  label_sum g (rows.*1) (rows.*2) j c (length rows) = rows_sum g j c rows.
Proof.
  unfold label_sum. induction rows as [|r rows IH]; [done|].
  cbn [length]. rewrite big_sum_peel_first. cbn [rows_sum foldr].
  fold (rows_sum g j c rows). rewrite <- IH. done.
Qed.

Lemma rows_sum_Permutation g j c rows rows' :
  rows ≡ₚ rows' → rows_sum g j c rows = rows_sum g j c rows'.
Proof.
  unfold rows_sum. induction 1 as [|r l l' _ IH|r r' l|l l' l'' _ IH1 _ IH2];
    cbn [foldr]; [done | by rewrite IH | lra | congruence].
Qed.

Lemma Counter_Permutation (y y' : list Z) : y ≡ₚ y' → Counter y = Counter y'.
Proof.
  intros Hperm. apply map_eq. intros l. rewrite !Counter_lookup.
  unfold occurrences.
  destruct (decide (l ∈ y)) as [Hin|Hnin], (decide (l ∈ y')) as [Hin'|Hnin'].
  - by rewrite Hperm.
  - by rewrite Hperm in Hin.
  - by rewrite <- Hperm in Hin'.
  - done.
Qed.

Lemma dataset_Permutation rows rows' m k :
  rows ≡ₚ rows' →
  dataset (rows.*1) (rows.*2) m k → dataset (rows'.*1) (rows'.*2) m k.
Proof.
  intros Hperm (Hne & Hm & Hlen & Hk). unfold dataset. split_and!.
  - intros Hnil. apply Hne. apply fmap_nil_inv in Hnil. subst rows'.
    apply Permutation_nil_r in Hperm. by subst rows.
  - by rewrite <- Hperm.
  - by rewrite !length_fmap.
  - by rewrite <- Hperm.
Qed.

Lemma moment_table_ext f f' m k :
  (∀ j c, f j c = f' j c) → moment_table f m k = moment_table f' m k.
Proof.
  intros Hf. unfold moment_table. apply list_fmap_ext. intros _ j _.
  apply list_fmap_ext. intros _ c _. apply Hf.
Qed.
End row_order.

(** X20. On a dataset, [fit] does not depend on the order of the training
    rows: presenting the rows, each with its label, in another order leaves
    the same object. *)
Theorem fit_ignores_row_order
    (self : GaussianNB) (rows rows' : list (list R * Z)) (m : nat) :
  rows ≡ₚ rows' →
  dataset (rows.*1) (rows.*2) m (size (_get_prior (rows.*2))) →
  fit self (rows'.*1) (rows'.*2) = fit self (rows.*1) (rows.*2).
Proof.
  intros Hperm Hdata.
  assert (_get_prior (rows'.*2) = _get_prior (rows.*2)) as Hprior.
  { unfold _get_prior. apply Counter_Permutation. by rewrite Hperm. }
  assert (dataset (rows'.*1) (rows'.*2) m (size (_get_prior (rows'.*2)))) as Hdata'.
  { rewrite Hprior. by apply (dataset_Permutation rows). }
  rewrite (fit_ok self _ _ m Hdata), (fit_ok self _ _ m Hdata'), Hprior.
  pose proof (Permutation_length Hperm) as Hlen.
  do 2 f_equal.
  - f_equal. apply moment_table_ext. intros j c.
    unfold scaled_avg, class_sum. rewrite !length_fmap, !label_sum_rows.
    by rewrite (rows_sum_Permutation _ _ _ _ _ Hperm), Hlen.
  - f_equal. apply moment_table_ext. intros j c.
    unfold scaled_var, scaled_avg, class_sqr_sum, class_sum.
    rewrite !length_fmap, !label_sum_rows.
    by rewrite !(rows_sum_Permutation _ _ _ _ _ Hperm), Hlen.
Qed.

Lemma fit_ignores_row_order_witness :
  fit __init__ (rows_two_swapped.*1) (rows_two_swapped.*2)
  = fit __init__ (rows_two.*1) (rows_two.*2).
Proof.
  apply (fit_ignores_row_order __init__ rows_two rows_two_swapped 1).
  - apply perm_swap.
  - exact dataset_two.
Defined.
